(** * reading_app: the countdown-enforced rules window

    A shallow embedding of [src/reading_app/main.py]: configuration
    loading, rules rendering, and the [ReadWindow] enforcement state
    machine (countdown, cursor hiding, low-level keyboard hook), followed
    by the properties the specification states about them.

    Conventions of the embedding.
    - Python values that come out of [json.load] are the inductive
      [pyval]; a [dict] is a [gmap string pyval].
    - Code that can raise returns [result]; [try ... except Exception]
      is [try_except].
    - [time.monotonic()] readings are the rationals ([Q]) the floats
      denote; [math.ceil] is [Qceiling]. The float operations of the
      countdown (lines 240, 245, 270) are the fields of [FloatArith] in
      [Fl.start_enforcement] and [Fl._tick]; [start_enforcement] and
      [_tick] are these where the operations are exact.
    - Library functions the program calls but does not define
      ([json.load], [markdown.markdown], [int] on a string) and the
      behaviour of the platform (is it Windows, which WinAPI calls fail,
      which handle the hook gets, the screen geometry) are fields of the
      records [Builtins] and [Platform], over which every statement is
      universally quantified.
    - The instance attributes of the window are the record [ReadWindow];
      what the window does to the outside (cursor display counter,
      installed hooks, running timers, process exit, and the sequence of
      calls made) is the record [World]. *)

From Stdlib Require Import ZArith QArith Qround String Ascii Lia.
From stdpp Require Import base option list gmap strings pretty.

#[local] Open Scope string_scope.
#[local] Open Scope Z_scope.

(** ** Python values and exceptions *)

Module Py.

Inductive exn : Type :=
  | OSError
  | UnicodeDecodeError
  | JSONDecodeError
  | TypeError
  | ValueError
  | KeyError
  | OverflowError
  | AttributeError.

Inductive result (A : Type) : Type :=
  | Ok (a : A)
  | Raise (e : exn).
Arguments Ok {A} a.
Arguments Raise {A} e.

#[export] Instance result_ret : MRet result := fun _ a => Ok a.
#[export] Instance result_bind : MBind result := fun _ _ f m =>
  match m with
  | Ok a => f a
  | Raise e => Raise e
  end.

(** [try: body  except Exception: handler] *)
Definition try_except {A} (body : result A) (handler : A) : A :=
  match body with
  | Ok a => a
  | Raise _ => handler
  end.

Definition is_ok {A} (r : result A) : bool :=
  match r with
  | Ok _ => true
  | Raise _ => false
  end.

Inductive pyfloat : Type :=
  | Finite (q : Q)
  | NaN
  | Inf (negative : bool).

#[warnings="-register-all"]
Inductive pyval : Type :=
  | PNone
  | PBool (b : bool)
  | PInt (z : Z)
  | PFloat (f : pyfloat)
  | PStr (s : string)
  | PList (l : list pyval)
  | PDict (d : gmap string pyval).

(** [needle in haystack] on two [str]: substring test. *)
Definition str_contains (needle haystack : string) : bool :=
  match String.index 0 needle haystack with
  | Some _ => true
  | None => false
  end.

Definition is_str (k : string) (v : pyval) : bool :=
  match v with
  | PStr s => String.eqb s k
  | _ => false
  end.

(** [k in data] for a [str] key [k]. *)
Definition py_contains (data : pyval) (k : string) : result bool :=
  match data with
  | PDict d => Ok (bool_decide (is_Some (d !! k)))
  | PList l => Ok (existsb (is_str k) l)
  | PStr s => Ok (str_contains k s)
  | _ => Raise TypeError
  end.

(** [data[k] = v] for a [str] key [k]. *)
Definition py_setitem (data : pyval) (k : string) (v : pyval) : result pyval :=
  match data with
  | PDict d => Ok (PDict (<[k := v]> d))
  | _ => Raise TypeError
  end.

(** [data[k]] for a [str] key [k]. *)
Definition py_getitem (data : pyval) (k : string) : result pyval :=
  match data with
  | PDict d =>
      match d !! k with
      | Some v => Ok v
      | None => Raise KeyError
      end
  | _ => Raise TypeError
  end.

(** [isinstance(v, dict)] *)
Definition is_dict (v : pyval) : bool :=
  match v with
  | PDict _ => true
  | _ => false
  end.

(** [d.get(k, dflt)] on a [dict]. *)
Definition dict_get (d : gmap string pyval) (k : string) (dflt : pyval) : pyval :=
  match d !! k with
  | Some v => v
  | None => dflt
  end.

(** [int(x)] of a finite float truncates towards zero. *)
Definition Qtruncate (q : Q) : Z := Z.quot (Qnum q) (Zpos (Qden q)).

End Py.
Import Py.

(** ** Library functions and the file system *)

Record Builtins : Type := {
  (** [json.load]: [None] when the text is not JSON. *)
  json_load : string -> option pyval;
  (** the module [markdown], [None] when its import failed. *)
  markdown : option (string -> string);
  (** [int(s)] of a [str]: [None] when it raises [ValueError]. *)
  int_of_str : string -> option Z
}.

Inductive file : Type :=
  | Missing
  | Unreadable (e : exn)
  | Content (text : string).

(** Files are named relative to the directory of the script. *)
Definition filesystem : Type := string -> file.

(** [Path.exists()], for a path the system can examine: [Missing] is the
    path for which it returns [False]. A path on which [exists()] itself
    raises (a name too long for the system) is no point of [filesystem]. *)
Definition exists_ (f : file) : bool :=
  match f with
  | Missing => false
  | _ => true
  end.

(** [Path.read_text(encoding="utf-8")] and [open(); read()] *)
Definition read_text (f : file) : result string :=
  match f with
  | Missing => Raise OSError
  | Unreadable e => Raise e
  | Content text => Ok text
  end.

(** [int(v)] *)
Definition py_int (B : Builtins) (v : pyval) : result Z :=
  match v with
  | PInt z => Ok z
  | PBool b => Ok (if b then 1 else 0)
  | PFloat (Finite q) => Ok (Qtruncate q)
  | PFloat NaN => Raise ValueError
  | PFloat (Inf _) => Raise OverflowError
  | PStr s =>
      match int_of_str B s with
      | Some z => Ok z
      | None => Raise ValueError
      end
  | _ => Raise TypeError
  end.

(** ** [load_config] *)

Definition default_title : string := "电子阅览室规章制度".

Definition default_window_items : list (string * pyval) :=
  [("width", PInt 900); ("height", PInt 600)].

Definition default_window : pyval := PDict (list_to_map default_window_items).

Definition default_items : list (string * pyval) :=
  [("title", PStr default_title);
   ("lock_seconds", PInt 5);
   ("window", default_window);
   ("font_point_size", PInt 12);
   ("requirements_markdown", PStr "rules.md")].

Definition default : pyval := PDict (list_to_map default_items).

(** [for k, v in items: if k not in data: data[k] = v] *)
Fixpoint merge_defaults (items : list (string * pyval)) (data : pyval) : result pyval :=
  match items with
  | [] => Ok data
  | (k, v) :: rest =>
      present ← py_contains data k;
      data' ← (if present : bool then Ok data else py_setitem data k v);
      merge_defaults rest data'
  end.

(** The body of the [try] block of [load_config]. *)
Definition load_config_body (B : Builtins) (f : file) : result pyval :=
  text ← read_text f;
  data ← match json_load B text with
         | Some v => Ok v
         | None => Raise JSONDecodeError
         end;
  data ← merge_defaults default_items data;
  has_window ← py_contains data "window";
  window_ok ← (if has_window : bool
               then (w ← py_getitem data "window"; Ok (is_dict w))
               else Ok false);
  if window_ok : bool
  then
    w ← py_getitem data "window";
    w' ← merge_defaults default_window_items w;
    py_setitem data "window" w'
  else py_setitem data "window" default_window.

Definition load_config (B : Builtins) (fs : filesystem) : pyval :=
  let cfg := fs "config.json" in
  if negb (exists_ cfg) then default
  else try_except (load_config_body B cfg) default.

(** ** [load_rules_html] *)

Definition dq : string := String "034"%char EmptyString.
Definition nl : string := String "010"%char EmptyString.

(** [s.replace(old, new)] for a non-empty [old]: every occurrence, left to
    right, not overlapping. [skip] counts the characters of an occurrence
    just replaced that are still to be dropped. *)
Fixpoint replace_from (old new : string) (skip : nat) (s : string) : string :=
  match s with
  | EmptyString => EmptyString
  | String c rest =>
      match skip with
      | S n => replace_from old new n rest
      | O =>
          if String.prefix old (String c rest)
          then new +:+ replace_from old new (String.length old - 1) rest
          else String c (replace_from old new 0 rest)
      end
  end.

Definition replace (old new s : string) : string := replace_from old new 0 s.

Definition rules_not_found : string := "<p>规则内容未找到。</p>".

Definition right_aligned (body : string) : string :=
  "<p style=" +:+ dq +:+ "text-align: right;" +:+ dq +:+ ">" +:+ body +:+ "</p>".

Definition styled_html (html_content : string) : string :=
  nl +:+ "        <style>" +:+ nl +:+
  "            h1 { text-align: center; }" +:+ nl +:+
  "        </style>" +:+ nl +:+
  "        " +:+ html_content +:+ nl +:+
  "        ".

Definition escape_pre (text : string) : string :=
  replace ">" "&gt;" (replace "<" "&lt;" (replace "&" "&amp;" text)).

Definition load_rules_html (B : Builtins) (fs : filesystem) (markdown_file : string)
  : result string :=
  let md_path := fs markdown_file in
  if negb (exists_ md_path) then Ok rules_not_found
  else
    text ← read_text md_path;
    match markdown B with
    | Some render =>
        let html_content := render text in
        let html_content :=
          replace "<p>桂林中学图书馆</p>" (right_aligned "桂林中学图书馆") html_content in
        let html_content :=
          replace "<p>2025年10月1日</p>" (right_aligned "2025年10月1日") html_content in
        Ok (styled_html html_content)
    | None => Ok ("<pre>" +:+ escape_pre text +:+ "</pre>")
    end.

(** A Python value passed where a [str] is required ([base / markdown_file],
    [setWindowTitle(title)]). *)
Definition as_str (v : pyval) : result string :=
  match v with
  | PStr s => Ok s
  | _ => Raise TypeError
  end.

(** [CFG.get(k, dflt)], guarded by [isinstance(CFG, dict)] where the
    source guards it. *)
Definition cfg_get (CFG : pyval) (k : string) (dflt : pyval) : pyval :=
  match CFG with
  | PDict d => dict_get d k dflt
  | _ => dflt
  end.

(** Module level: [RULES_HTML = load_rules_html(CFG.get("requirements_markdown", "rules.md"))].
    [CFG] comes from [load_config] and is a [dict]; on anything else
    [.get] raises. *)
Definition module_rules_html (B : Builtins) (fs : filesystem) (CFG : pyval) : result string :=
  match CFG with
  | PDict d =>
      markdown_file ← as_str (dict_get d "requirements_markdown" (PStr "rules.md"));
      load_rules_html B fs markdown_file
  | _ => Raise AttributeError
  end.

(** ** The platform and the world outside the window *)

Record rect : Type := { rx : Z; ry : Z; rwidth : Z; rheight : Z }.

Inductive winapi : Type :=
  | ShowCursor (show : bool)
  | SetCursorPos (x y : Z)
  | SetWindowPos
  | GetModuleHandleW
  | SetWindowsHookExW
  | UnhookWindowsHookEx (h : Z).

(** What the window is seen to do, in order. *)
Inductive call : Type :=
  | Api (c : winapi)
  | TimerStart (id : nat) (msec : Z)
  | TimerStop (id : nat)
  | InfoSetText (s : string)
  | CloseBtnSetEnabled (b : bool)
  | WindowMove (x y : Z)
  | WindowRaise
  | WindowActivate
  | EventIgnore
  | AppQuit
  | SysExit (code : Z).

Record Platform : Type := {
  IS_WINDOWS : bool;
  (** the WinAPI call raises, or fails, and changes nothing *)
  raises : winapi -> bool;
  (** the handle [SetWindowsHookExW] returns; [0] is [NULL] *)
  hook_handle : Z;
  (** [QApplication.primaryScreen().availableGeometry()] *)
  primary_screen : option rect;
  (** [self.geometry()] *)
  geometry : rect
}.

(** The slot a [QTimer] is connected to. *)
Inductive slot : Type :=
  | SlotHoldCursorCenter
  | SlotTick.

Record World : Type := {
  (** the display counter [ShowCursor] increments and decrements *)
  cursor_count : Z;
  (** handles of the keyboard hooks this process has installed *)
  hooks : gset Z;
  (** the running timers and the slot each is connected to *)
  timers : gmap nat slot;
  (** number of [QTimer] objects created so far *)
  timer_count : nat;
  (** whether the window is shown *)
  visible : bool;
  (** [Some code] once the process has exited *)
  exit_code : option Z;
  (** the calls made so far, oldest first *)
  calls : list call
}.

Definition set_cursor_count (v : Z) (os : World) : World :=
  {| cursor_count := v; hooks := hooks os; timers := timers os;
     timer_count := timer_count os; visible := visible os; exit_code := exit_code os; calls := calls os |}.
Definition set_hooks (v : gset Z) (os : World) : World :=
  {| cursor_count := cursor_count os; hooks := v; timers := timers os;
     timer_count := timer_count os; visible := visible os; exit_code := exit_code os; calls := calls os |}.
Definition set_timers (v : gmap nat slot) (os : World) : World :=
  {| cursor_count := cursor_count os; hooks := hooks os; timers := v;
     timer_count := timer_count os; visible := visible os; exit_code := exit_code os; calls := calls os |}.
Definition set_timer_count (v : nat) (os : World) : World :=
  {| cursor_count := cursor_count os; hooks := hooks os; timers := timers os;
     timer_count := v; visible := visible os; exit_code := exit_code os; calls := calls os |}.
Definition set_visible (v : bool) (os : World) : World :=
  {| cursor_count := cursor_count os; hooks := hooks os; timers := timers os;
     timer_count := timer_count os; visible := v; exit_code := exit_code os; calls := calls os |}.
Definition set_exit_code (v : option Z) (os : World) : World :=
  {| cursor_count := cursor_count os; hooks := hooks os; timers := timers os;
     timer_count := timer_count os; visible := visible os; exit_code := v; calls := calls os |}.
Definition set_calls (v : list call) (os : World) : World :=
  {| cursor_count := cursor_count os; hooks := hooks os; timers := timers os;
     timer_count := timer_count os; visible := visible os; exit_code := exit_code os; calls := v |}.

Definition record (c : call) (os : World) : World := set_calls (calls os ++ [c]) os.

(** What a WinAPI call that does not fail does to the system. *)
Definition winapi_effect (P : Platform) (c : winapi) (os : World) : World :=
  match c with
  | ShowCursor true => set_cursor_count (cursor_count os + 1) os
  | ShowCursor false => set_cursor_count (cursor_count os - 1) os
  | SetWindowsHookExW =>
      if hook_handle P =? 0 then os
      else set_hooks ({[hook_handle P]} ∪ hooks os) os
  | UnhookWindowsHookEx h => set_hooks (hooks os ∖ {[h]}) os
  | _ => os
  end.

(** A call through [ctypes]: the flag is [false] when it raised. *)
Definition winapi_call (P : Platform) (c : winapi) (os : World) : bool * World :=
  let os' := record (Api c) os in
  if raises P c then (false, os') else (true, winapi_effect P c os').

(** [try: user32.f(...)  except Exception: pass] *)
Definition winapi_try (P : Platform) (c : winapi) (os : World) : World :=
  (winapi_call P c os).2.

(** [t = QTimer(self); t.timeout.connect(s); t.start(msec)] *)
Definition timer_new_start (s : slot) (msec : Z) (os : World) : nat * World :=
  let id := timer_count os in
  (id, record (TimerStart id msec)
         (set_timers (<[id := s]> (timers os)) (set_timer_count (S id) os))).

(** [t.stop()] *)
Definition timer_stop (id : nat) (os : World) : World :=
  record (TimerStop id) (set_timers (delete id (timers os)) os).

(** ** [ReadWindow] *)

Record ReadWindow : Type := {
  lock_seconds : Z;
  remaining : Z;
  _deadline : option Q;
  _mouse_lock_timer : option nat;
  _countdown_timer : option nat;
  _kb_hook : option Z;
  (** whether [_kb_proc] holds the callback *)
  _kb_proc : bool;
  _cursor_hidden : bool;
  windowTitle : string;
  width : Z;
  height : Z;
  html : string;
  font_point_size : Z;
  (** the text of the label [info] *)
  info : string;
  (** whether the button [close_btn] is enabled *)
  close_btn : bool
}.

Definition set_remaining (v : Z) (w : ReadWindow) : ReadWindow :=
  {| lock_seconds := lock_seconds w; remaining := v; _deadline := _deadline w;
     _mouse_lock_timer := _mouse_lock_timer w; _countdown_timer := _countdown_timer w;
     _kb_hook := _kb_hook w; _kb_proc := _kb_proc w; _cursor_hidden := _cursor_hidden w;
     windowTitle := windowTitle w; width := width w; height := height w; html := html w;
     font_point_size := font_point_size w; info := info w; close_btn := close_btn w |}.
Definition set_deadline (v : option Q) (w : ReadWindow) : ReadWindow :=
  {| lock_seconds := lock_seconds w; remaining := remaining w; _deadline := v;
     _mouse_lock_timer := _mouse_lock_timer w; _countdown_timer := _countdown_timer w;
     _kb_hook := _kb_hook w; _kb_proc := _kb_proc w; _cursor_hidden := _cursor_hidden w;
     windowTitle := windowTitle w; width := width w; height := height w; html := html w;
     font_point_size := font_point_size w; info := info w; close_btn := close_btn w |}.
Definition set_mouse_lock_timer (v : option nat) (w : ReadWindow) : ReadWindow :=
  {| lock_seconds := lock_seconds w; remaining := remaining w; _deadline := _deadline w;
     _mouse_lock_timer := v; _countdown_timer := _countdown_timer w;
     _kb_hook := _kb_hook w; _kb_proc := _kb_proc w; _cursor_hidden := _cursor_hidden w;
     windowTitle := windowTitle w; width := width w; height := height w; html := html w;
     font_point_size := font_point_size w; info := info w; close_btn := close_btn w |}.
Definition set_countdown_timer (v : option nat) (w : ReadWindow) : ReadWindow :=
  {| lock_seconds := lock_seconds w; remaining := remaining w; _deadline := _deadline w;
     _mouse_lock_timer := _mouse_lock_timer w; _countdown_timer := v;
     _kb_hook := _kb_hook w; _kb_proc := _kb_proc w; _cursor_hidden := _cursor_hidden w;
     windowTitle := windowTitle w; width := width w; height := height w; html := html w;
     font_point_size := font_point_size w; info := info w; close_btn := close_btn w |}.
Definition set_kb (hook : option Z) (proc : bool) (w : ReadWindow) : ReadWindow :=
  {| lock_seconds := lock_seconds w; remaining := remaining w; _deadline := _deadline w;
     _mouse_lock_timer := _mouse_lock_timer w; _countdown_timer := _countdown_timer w;
     _kb_hook := hook; _kb_proc := proc; _cursor_hidden := _cursor_hidden w;
     windowTitle := windowTitle w; width := width w; height := height w; html := html w;
     font_point_size := font_point_size w; info := info w; close_btn := close_btn w |}.
Definition set_cursor_hidden (v : bool) (w : ReadWindow) : ReadWindow :=
  {| lock_seconds := lock_seconds w; remaining := remaining w; _deadline := _deadline w;
     _mouse_lock_timer := _mouse_lock_timer w; _countdown_timer := _countdown_timer w;
     _kb_hook := _kb_hook w; _kb_proc := _kb_proc w; _cursor_hidden := v;
     windowTitle := windowTitle w; width := width w; height := height w; html := html w;
     font_point_size := font_point_size w; info := info w; close_btn := close_btn w |}.
Definition set_info (v : string) (w : ReadWindow) : ReadWindow :=
  {| lock_seconds := lock_seconds w; remaining := remaining w; _deadline := _deadline w;
     _mouse_lock_timer := _mouse_lock_timer w; _countdown_timer := _countdown_timer w;
     _kb_hook := _kb_hook w; _kb_proc := _kb_proc w; _cursor_hidden := _cursor_hidden w;
     windowTitle := windowTitle w; width := width w; height := height w; html := html w;
     font_point_size := font_point_size w; info := v; close_btn := close_btn w |}.
Definition set_close_btn (v : bool) (w : ReadWindow) : ReadWindow :=
  {| lock_seconds := lock_seconds w; remaining := remaining w; _deadline := _deadline w;
     _mouse_lock_timer := _mouse_lock_timer w; _countdown_timer := _countdown_timer w;
     _kb_hook := _kb_hook w; _kb_proc := _kb_proc w; _cursor_hidden := _cursor_hidden w;
     windowTitle := windowTitle w; width := width w; height := height w; html := html w;
     font_point_size := font_point_size w; info := info w; close_btn := v |}.

(** The window together with the world it acts on. *)
Definition state : Type := ReadWindow * World.

(** [self.info.setText(s)] *)
Definition info_setText (s : string) (st : state) : state :=
  (set_info s st.1, record (InfoSetText s) st.2).

(** [self.close_btn.setEnabled(b)] *)
Definition close_btn_setEnabled (b : bool) (st : state) : state :=
  (set_close_btn b st.1, record (CloseBtnSetEnabled b) st.2).

(** Decimal rendering of an [int] in an f-string. *)
Definition str_of_int (z : Z) : string := pretty z.

Definition intro_text (n : Z) : string :=
  "请认真阅读，上述内容将显示 " +:+ str_of_int n +:+ " 秒，期间键鼠被限制…".

Definition countdown_text (n : Z) : string :=
  "请认真阅读（" +:+ str_of_int n +:+ " 秒后可关闭），期间键盘与鼠标移动被限制。".

Definition released_text : string := "阅读时间到，您可以关闭窗口。".

(** The first two statements of [ReadWindow.__init__]: the value given to
    [self.lock_seconds]. *)
Definition init_lock_seconds (B : Builtins) (CFG : pyval) (lock_seconds_arg : Z) : result Z :=
  let cfg_lock := cfg_get CFG "lock_seconds" PNone in
  n ← match cfg_lock with
      | PNone => Ok lock_seconds_arg
      | v => py_int B v
      end;
  Ok (Z.max 1 n).

(** [ReadWindow.__init__(self, lock_seconds)] with the module globals
    [CFG] and [RULES_HTML]. *)
Definition init (B : Builtins) (CFG : pyval) (RULES_HTML : string) (lock_seconds_arg : Z)
  : result ReadWindow :=
  lock ← init_lock_seconds B CFG lock_seconds_arg;
  title ← as_str (cfg_get CFG "title" (PStr default_title));
  win ← match cfg_get CFG "window" (PDict ∅) with
        | PDict d => Ok d
        | _ => Raise AttributeError
        end;
  w ← py_int B (dict_get win "width" (PInt 900));
  h ← py_int B (dict_get win "height" (PInt 600));
  fps ← py_int B (cfg_get CFG "font_point_size" (PInt 12));
  Ok {| lock_seconds := lock; remaining := lock; _deadline := None;
        _mouse_lock_timer := None; _countdown_timer := None;
        _kb_hook := None; _kb_proc := false; _cursor_hidden := false;
        windowTitle := title; width := w; height := h; html := RULES_HTML;
        font_point_size := fps; info := intro_text lock; close_btn := false |}.

Section Methods.

Variable P : Platform.

(** [ReadWindow.center_on_screen] *)
Definition center_on_screen (st : state) : state :=
  match primary_screen P with
  | None => st
  | Some geo =>
      let x := rx geo + Z.div (rwidth geo - width st.1) 2 in
      let y := ry geo + Z.div (rheight geo - height st.1) 2 in
      (st.1, record (WindowMove x y) st.2)
  end.

(** [ReadWindow.force_topmost] *)
Definition force_topmost (st : state) : state :=
  let os := if IS_WINDOWS P then winapi_try P SetWindowPos st.2 else st.2 in
  (st.1, record WindowActivate (record WindowRaise os)).

(** [ReadWindow._center_point] *)
Definition _center_point : Z * Z :=
  let geo := match primary_screen P with
             | Some g => g
             | None => geometry P
             end in
  (rx geo + Z.div (rwidth geo) 2, ry geo + Z.div (rheight geo) 2).

(** [ReadWindow._hold_cursor_center] *)
Definition _hold_cursor_center (st : state) : state :=
  if negb (IS_WINDOWS P) then st
  else
    let '(cx, cy) := _center_point in
    (st.1, winapi_try P (SetCursorPos cx cy) st.2).

(** [ReadWindow.update_info] *)
Definition update_info (st : state) : state :=
  info_setText (countdown_text (remaining st.1)) st.

(** Truth value of [self._kb_hook]: [None] and [0] are false. *)
Definition hook_truthy (h : option Z) : bool :=
  match h with
  | Some z => negb (z =? 0)
  | None => false
  end.

(** [ReadWindow.install_keyboard_blocker] *)
Definition install_keyboard_blocker (st : state) : state :=
  if negb (IS_WINDOWS P) || hook_truthy (_kb_hook st.1) then st
  else
    let w := set_kb (_kb_hook st.1) true st.1 in
    let '(ok, os) := winapi_call P GetModuleHandleW st.2 in
    if negb ok then (set_kb None false w, os)
    else
      let '(ok, os) := winapi_call P SetWindowsHookExW os in
      if negb ok then (set_kb None false w, os)
      else (set_kb (Some (hook_handle P)) true w, os).

(** [ReadWindow.uninstall_keyboard_blocker] *)
Definition uninstall_keyboard_blocker (st : state) : state :=
  if negb (IS_WINDOWS P) then st
  else
    let os := match _kb_hook st.1 with
              | Some h =>
                  if hook_truthy (Some h)
                  then winapi_try P (UnhookWindowsHookEx h) st.2
                  else st.2
              | None => st.2
              end in
    (set_kb None false st.1, os).

(** [ReadWindow.release_enforcement] *)
Definition release_enforcement (st : state) : state :=
  let st := match _countdown_timer st.1 with
            | Some id => (set_countdown_timer None st.1, timer_stop id st.2)
            | None => st
            end in
  let st := (set_deadline None st.1, st.2) in
  let st := match _mouse_lock_timer st.1 with
            | Some id => (set_mouse_lock_timer None st.1, timer_stop id st.2)
            | None => st
            end in
  let st := if IS_WINDOWS P && _cursor_hidden st.1
            then (set_cursor_hidden false st.1, winapi_try P (ShowCursor true) st.2)
            else st in
  let st := if IS_WINDOWS P then uninstall_keyboard_blocker st else st in
  let st := info_setText released_text st in
  close_btn_setEnabled true st.

(** [ReadWindow.start_enforcement]; [t1] and [t2] are its two readings of
    [time.monotonic()]. The clock arithmetic is the exact one here;
    [Fl.start_enforcement] has the float operations of lines 240 and 245,
    and this is its value where they are exact. *)
Definition start_enforcement (t1 t2 : Q) (st : state) : state :=
  let st := if IS_WINDOWS P then install_keyboard_blocker st else st in
  let '(id, os) := timer_new_start SlotHoldCursorCenter 10 st.2 in
  let st := (set_mouse_lock_timer (Some id) st.1, os) in
  let st := if IS_WINDOWS P
            then let '(ok, os) := winapi_call P (ShowCursor false) st.2 in
                 (set_cursor_hidden ok st.1, os)
            else st in
  let deadline := (t1 + inject_Z (lock_seconds st.1))%Q in
  let st := (set_deadline (Some deadline) st.1, st.2) in
  let '(id, os) := timer_new_start SlotTick 250 st.2 in
  let st := (set_countdown_timer (Some id) st.1, os) in
  let st := (set_remaining (Z.max 0 (Qceiling (deadline - t2))) st.1, st.2) in
  let st := update_info st in
  _hold_cursor_center st.

(** [ReadWindow._tick]; [now] is its reading of [time.monotonic()]. The
    difference is the exact one here; [Fl._tick] has the float
    subtraction of line 270, and this is its value where it is exact. *)
Definition _tick (now : Q) (st : state) : state :=
  match _deadline st.1 with
  | None => st
  | Some deadline =>
      let rem := Qceiling (deadline - now) in
      if rem <=? 0 then release_enforcement (set_remaining 0 st.1, st.2)
      else if negb (rem =? remaining st.1)
           then update_info (set_remaining rem st.1, st.2)
           else st
  end.

(** [ReadWindow.showEvent] *)
Definition showEvent (t1 t2 : Q) (st : state) : state :=
  start_enforcement t1 t2 (force_topmost (center_on_screen st)).

(** A [QCloseEvent]; Qt creates it accepted. *)
Record QCloseEvent : Type := { accepted : bool }.

(** [ReadWindow.closeEvent] *)
Definition closeEvent (event : QCloseEvent) (st : state) : QCloseEvent * state :=
  ({| accepted := false |}, force_topmost (st.1, record EventIgnore st.2)).

(** [ReadWindow.safe_close] *)
Definition safe_close (st : state) : state :=
  let st := release_enforcement st in
  let os := record AppQuit st.2 in
  (st.1, set_exit_code (Some 0) (record (SysExit 0) os)).





End Methods.

(** ** The event loop and the program *)

Section Program.

Variable B : Builtins.
Variable P : Platform.

(** [w.show()]: Qt makes the window visible and sends the show event. *)
Definition show (t1 t2 : Q) (st : state) : state :=
  showEvent P t1 t2 (st.1, set_visible true st.2).

(** A close request (the close button of the title bar, Alt+F4): Qt sends
    a close event and hides the window only if the handler leaves the
    event accepted. *)
Definition close_request (st : state) : state :=
  let '(event, st') := closeEvent P {| accepted := true |} st in
  if accepted event then (st'.1, set_visible false st'.2) else st'.

(** A click on [close_btn]: Qt emits [clicked] only for an enabled
    button; the signal is connected to [safe_close]. *)
Definition click_close_btn (st : state) : state :=
  if close_btn st.1 then safe_close P st else st.

(** The timer [id] fires at clock reading [now]: Qt calls the slot the
    timer is connected to, if the timer is still running. *)
Definition timeout (id : nat) (now : Q) (st : state) : state :=
  match timers st.2 !! id with
  | Some SlotTick => _tick P now st
  | Some SlotHoldCursorCenter => _hold_cursor_center P st
  | None => st
  end.



(** Countdown ticks at the clock readings [times], oldest first. *)
Definition run_ticks (times : list Q) (st : state) : state :=
  foldl (fun st now => _tick P now st) st times.

(** Module level and [main()]: load the configuration and the rules,
    build the window and show it. [os] is the world the process starts
    in, [t1] and [t2] the clock readings of [start_enforcement]. *)
Definition main (fs : filesystem) (os : World) (t1 t2 : Q) : result state :=
  let CFG := load_config B fs in
  RULES_HTML ← module_rules_html B fs CFG;
  w ← init B CFG RULES_HTML 5;
  Ok (show t1 t2 (w, os)).

End Program.

(** ** Notions used in the statements *)

(** The enforcement is running: [start_enforcement] has set a deadline
    that [release_enforcement] has not yet cleared. *)
Definition LOCKED (st : state) : Prop := _deadline st.1 <> None.
Definition RELEASED (st : state) : Prop := _deadline st.1 = None.

(** Clock readings that never go back, starting from [t]. *)
Fixpoint nondecreasing (t : Q) (times : list Q) : Prop :=
  match times with
  | [] => True
  | u :: rest => (t <= u)%Q /\ nondecreasing u rest
  end.

(** The world without the record of calls: what the system is left in. *)
Definition system_state (os : World) : Z * gset Z * gmap nat slot * nat * bool * option Z :=
  (cursor_count os, hooks os, timers os, timer_count os, visible os, exit_code os).

(** Number of times the release sequence has run to its end (its last
    action enables the button). *)
Definition is_release (c : call) : bool :=
  match c with
  | CloseBtnSetEnabled true => true
  | _ => false
  end.

Definition releases (os : World) : nat := length (List.filter is_release (calls os)).

Definition is_cursor_restore (c : call) : bool :=
  match c with
  | Api (ShowCursor true) => true
  | _ => false
  end.

Definition cursor_restores (os : World) : nat :=
  length (List.filter is_cursor_restore (calls os)).

(** The merge of defaults into a parsed configuration object, in the words
    of the specification: absent top-level keys and absent [window]
    sub-keys take their default, nothing else changes. *)
Definition default_map : gmap string pyval := list_to_map default_items.
Definition default_window_map : gmap string pyval := list_to_map default_window_items.

Definition spec_merge (d : gmap string pyval) : gmap string pyval :=
  let window :=
    match d !! "window" with
    | Some (PDict wd) => PDict (wd ∪ default_window_map)
    | _ => default_window
    end in
  <["window" := window]> (d ∪ default_map).

(** What holds of the countdown between [start_enforcement] and the end
    of the lock cycle: [d] is the deadline, [t] the latest clock reading. *)
Definition in_cycle (d t : Q) (st : state) : Prop :=
  (_deadline st.1 = Some d
   /\ remaining st.1 = Z.max 0 (Qceiling (d - t))
   /\ info st.1 = countdown_text (remaining st.1))
  \/ (_deadline st.1 = None /\ remaining st.1 = 0).

(** The hooks of the process are none, or exactly the one the window
    holds in [_kb_hook]. *)
Definition hooks_tracked (P : Platform) (st : state) : Prop :=
  (hooks st.2 = ∅ /\ (IS_WINDOWS P = false -> _kb_hook st.1 = None))
  \/ (IS_WINDOWS P = true
      /\ exists h, h <> 0 /\ _kb_hook st.1 = Some h /\ hooks st.2 = {[h]}).


(** ** Concrete inputs *)

Definition config_text_10 : string :=
  "{" +:+ dq +:+ "lock_seconds" +:+ dq +:+ ": 10}".

Definition config_text_window_5 : string :=
  "{" +:+ dq +:+ "window" +:+ dq +:+ ": 5, " +:+ dq +:+ "lock_seconds" +:+ dq +:+ ": 10}".

Definition example_builtins : Builtins :=
  {| json_load := fun text =>
       if String.eqb text config_text_10
       then Some (PDict {["lock_seconds" := PInt 10]})
       else if String.eqb text config_text_window_5
       then Some (PDict (<["window" := PInt 5]> {["lock_seconds" := PInt 10]}))
       else None;
     markdown := None;
     int_of_str := fun _ => None |}.

Definition fs_empty : filesystem := fun _ => Missing.

Definition fs_config_10 : filesystem := fun path =>
  if String.eqb path "config.json" then Content config_text_10 else Missing.

Definition fs_config_window_5 : filesystem := fun path =>
  if String.eqb path "config.json" then Content config_text_window_5 else Missing.

Definition fs_malformed_config : filesystem := fun path =>
  if String.eqb path "config.json" then Content "lock_seconds = 10" else Missing.

Definition fs_unreadable_rules : filesystem := fun path =>
  if String.eqb path "rules.md" then Unreadable OSError else Missing.

Definition full_hd : rect := {| rx := 0; ry := 0; rwidth := 1920; rheight := 1080 |}.

Definition windows_ok : Platform :=
  {| IS_WINDOWS := true; raises := fun _ => false; hook_handle := 77;
     primary_screen := Some full_hd; geometry := full_hd |}.

Definition windows_unhook_fails : Platform :=
  {| IS_WINDOWS := true;
     raises := fun c => match c with UnhookWindowsHookEx _ => true | _ => false end;
     hook_handle := 77;
     primary_screen := Some full_hd; geometry := full_hd |}.

Definition fresh_world : World :=
  {| cursor_count := 0; hooks := ∅; timers := ∅; timer_count := 0;
     visible := false; exit_code := None; calls := [] |}.

(** The window [__init__] builds from the default configuration and the
    placeholder. *)
Definition default_window_object : ReadWindow :=
  {| lock_seconds := 5; remaining := 5; _deadline := None;
     _mouse_lock_timer := None; _countdown_timer := None;
     _kb_hook := None; _kb_proc := false; _cursor_hidden := false;
     windowTitle := default_title; width := 900; height := 600;
     html := rules_not_found; font_point_size := 12;
     info := intro_text 5; close_btn := false |}.

(** The default window just shown on Windows at clock reading 0. *)
Definition locked_example : state :=
  show windows_ok 0 0 (default_window_object, fresh_world).


(** ** Notions used in the further statements *)

(** What Qt can deliver to the window. *)
Inductive event : Type :=
  | EvShow (t1 t2 : Q)
  | EvTimeout (id : nat) (now : Q)
  | EvCloseRequest
  | EvClick.

(** One turn of the event loop; nothing is delivered once the process
    has exited. *)
Definition handle (P : Platform) (ev : event) (st : state) : state :=
  match exit_code st.2 with
  | Some _ => st
  | None =>
      match ev with
      | EvShow t1 t2 => show P t1 t2 st
      | EvTimeout id now => timeout P id now st
      | EvCloseRequest => close_request P st
      | EvClick => click_close_btn P st
      end
  end.

Definition run (P : Platform) (evs : list event) (st : state) : state :=
  foldl (fun st ev => handle P ev st) st evs.

(** The state the release sequence leaves the window in. *)
Definition released_window (st : state) : Prop :=
  RELEASED st /\ close_btn st.1 = true /\ info st.1 = released_text
  /\ _countdown_timer st.1 = None /\ _mouse_lock_timer st.1 = None.

(** The WinAPI calls among the calls made. *)
Definition is_api (c : call) : bool :=
  match c with
  | Api _ => true
  | _ => false
  end.

Definition api_calls (os : World) : list call := List.filter is_api (calls os).

(** What the window has done to, and keeps of, the platform. *)
Definition winapi_footprint (st : state) : list call * Z * gset Z * option Z * bool :=
  (api_calls st.2, cursor_count st.2, hooks st.2, _kb_hook st.1, _cursor_hidden st.1).

(** What enforcement holds on to: the timers and the hook the window
    references, whether it has hidden the cursor, and the running timers,
    cursor counter and installed hooks of the system. *)
Definition resources (st : state)
  : option nat * option nat * bool * option Z * gmap nat slot * Z * gset Z :=
  (_mouse_lock_timer st.1, _countdown_timer st.1, _cursor_hidden st.1, _kb_hook st.1,
   timers st.2, cursor_count st.2, hooks st.2).

(** The countdown side of the state: everything but the cursor, the hook
    and the record of calls. *)
Definition countdown_part (st : state)
  : Z * Z * option Q * option nat * option nat * string * bool
    * gmap nat slot * nat * bool * option Z :=
  (lock_seconds st.1, remaining st.1, _deadline st.1, _mouse_lock_timer st.1,
   _countdown_timer st.1, info st.1, close_btn st.1,
   timers st.2, timer_count st.2, visible st.2, exit_code st.2).

(** The character [c] occurs in [s]. *)
Fixpoint has_char (c : ascii) (s : string) : bool :=
  match s with
  | EmptyString => false
  | String a rest => Ascii.eqb a c || has_char c rest
  end.

(** [old in s] on two [str]: [old] starts at some position of [s]. *)
Fixpoint occurs (old s : string) : bool :=
  match s with
  | EmptyString => String.prefix old EmptyString
  | String c rest => String.prefix old (String c rest) || occurs old rest
  end.

(** ** The countdown in floating point *)

(** [time.monotonic()] returns a float, and [start_enforcement] and
    [_tick] compute with floats: line 240 adds the int [lock_seconds] to
    a float, lines 245 and 270 subtract two floats. A finite float is the
    rational number it denotes; the three operations round, and the first
    two can fail. *)
Record FloatArith : Type := {
  (** [float(n)], the conversion [float + int] applies to its int
      operand; [None] when it raises [OverflowError] *)
  float_of_int : Z -> option Q;
  (** [x + y]; [None] when the sum is not finite *)
  float_add : Q -> Q -> option Q;
  (** [x - y], for a deadline and a clock reading *)
  float_sub : Q -> Q -> Q
}.

(** Rounding keeps the order: of two clock readings the later one is no
    further from the deadline. *)
Definition sub_monotone (A : FloatArith) : Prop :=
  forall d t u : Q, (t <= u)%Q -> (float_sub A d u <= float_sub A d t)%Q.

Module Fl.

Section Methods.

Variable A : FloatArith.
Variable P : Platform.

(** [ReadWindow.start_enforcement]; [t1] and [t2] are its two readings of
    [time.monotonic()]. [float + int] raises at line 240 when the int has
    no float; [math.ceil] raises at line 245 when the deadline is not
    finite. *)
Definition start_enforcement (t1 t2 : Q) (st : state) : result state :=
  let st := if IS_WINDOWS P then install_keyboard_blocker P st else st in
  let '(id, os) := timer_new_start SlotHoldCursorCenter 10 st.2 in
  let st := (set_mouse_lock_timer (Some id) st.1, os) in
  let st := if IS_WINDOWS P
            then let '(ok, os) := winapi_call P (ShowCursor false) st.2 in
                 (set_cursor_hidden ok st.1, os)
            else st in
  match float_of_int A (lock_seconds st.1) with
  | None => Raise OverflowError
  | Some secs =>
      match float_add A t1 secs with
      | None => Raise OverflowError
      | Some deadline =>
          let st := (set_deadline (Some deadline) st.1, st.2) in
          let '(id, os) := timer_new_start SlotTick 250 st.2 in
          let st := (set_countdown_timer (Some id) st.1, os) in
          let st := (set_remaining (Z.max 0 (Qceiling (float_sub A deadline t2))) st.1,
                     st.2) in
          let st := update_info st in
          Ok (_hold_cursor_center P st)
      end
  end.

(** [ReadWindow._tick]; [now] is its reading of [time.monotonic()]. *)
Definition _tick (now : Q) (st : state) : state :=
  match _deadline st.1 with
  | None => st
  | Some deadline =>
      let rem := Qceiling (float_sub A deadline now) in
      if rem <=? 0 then release_enforcement P (set_remaining 0 st.1, st.2)
      else if negb (rem =? remaining st.1)
           then update_info (set_remaining rem st.1, st.2)
           else st
  end.

(** [ReadWindow.showEvent] *)
Definition showEvent (t1 t2 : Q) (st : state) : result state :=
  start_enforcement t1 t2 (force_topmost P (center_on_screen P st)).

(** [w.show()]: Qt makes the window visible and sends the show event. *)
Definition show (t1 t2 : Q) (st : state) : result state :=
  showEvent t1 t2 (st.1, set_visible true st.2).

(** Countdown ticks at the clock readings [times], oldest first. *)
Definition run_ticks (times : list Q) (st : state) : state :=
  foldl (fun st now => _tick now st) st times.

(** What holds of the countdown between [start_enforcement] and the end
    of the lock cycle: [d] is the deadline, [t] the latest clock reading. *)
Definition in_cycle (d t : Q) (st : state) : Prop :=
  (_deadline st.1 = Some d
   /\ remaining st.1 = Z.max 0 (Qceiling (float_sub A d t))
   /\ info st.1 = countdown_text (remaining st.1))
  \/ (_deadline st.1 = None /\ remaining st.1 = 0).

End Methods.

End Fl.

(** Arithmetic without rounding: every int has its float and sums and
    differences are the exact ones. [start_enforcement] and [_tick] of the
    previous sections are the float versions at this arithmetic. *)
Definition exact_arith : FloatArith :=
  {| float_of_int := fun z => Some (inject_Z z);
     float_add := fun x y => Some (x + y)%Q;
     float_sub := Qminus |}.

(** The same with the range of a double: an int from [2^1024] on has no
    float. *)
Definition bounded_arith : FloatArith :=
  {| float_of_int := fun z => if Z.abs z <? 2 ^ 1024 then Some (inject_Z z) else None;
     float_add := fun x y => Some (x + y)%Q;
     float_sub := Qminus |}.

(** ** Calls that take the keyboard hook out *)

Definition is_unhook (c : call) : bool :=
  match c with
  | Api (UnhookWindowsHookEx _) => true
  | _ => false
  end.

Definition unhooks (os : World) : nat := length (List.filter is_unhook (calls os)).

(** A configuration file that exists but cannot be read. *)
Definition fs_unreadable_config : filesystem := fun path =>
  if String.eqb path "config.json" then Unreadable OSError else Missing.

(** * Properties *)

(** Unfolding of the exception monad. *)
Ltac rsimpl :=
  repeat (simpl in *; unfold mbind, result_bind, mret, result_ret in * ); simpl in *.

(** ** Configuration *)

Lemma merge_defaults_dict (items : list (string * pyval)) (d : gmap string pyval) :
  merge_defaults items (PDict d) = Ok (PDict (d ∪ list_to_map items)).
Proof.
  revert d. induction items as [|[k v] rest IH]; intros d; simpl.
  - by rewrite (right_id_L ∅ (∪)).
  - destruct (d !! k) as [x|] eqn:Hk.
    + rewrite bool_decide_eq_true_2 by eauto. simpl. rewrite IH.
      do 2 f_equal. apply map_eq. intros i.
      rewrite !lookup_union. destruct (decide (k = i)) as [->|Hne].
      * rewrite lookup_insert_eq, Hk. by destruct (list_to_map rest !! i).
      * by rewrite lookup_insert_ne.
    + rewrite bool_decide_eq_false_2 by (intros [? ?]; congruence). simpl.
      rewrite IH. do 2 f_equal.
      rewrite <- insert_union_l. by rewrite insert_union_r.
Qed.

Lemma merge_defaults_not_dict (items : list (string * pyval)) (v r : pyval) :
  is_dict v = false -> merge_defaults items v = Ok r -> r = v.
Proof.
  intros Hv. induction items as [|[k x] rest IH]; simpl.
  - congruence.
  - destruct (py_contains v k) as [[|]|e] eqn:Hc; rsimpl; try done.
    destruct v; rsimpl; done.
Qed.

Lemma load_config_body_not_dict (B : Builtins) (text : string) (v : pyval) :
  json_load B text = Some v -> is_dict v = false ->
  is_ok (load_config_body B (Content text)) = false.
Proof.
  intros Hj Hv. unfold load_config_body, read_text.
  unfold mbind at 1 2, result_bind. rewrite Hj.
  destruct (merge_defaults default_items v) as [r|e] eqn:Hm; [|done].
  apply merge_defaults_not_dict in Hm; [|done]. subst r.
  unfold mbind, result_bind.
  destruct v; simpl in *; try done.
  - destruct (str_contains "window" s); done.
  - destruct (existsb (is_str "window") l); done.
Qed.

Lemma load_config_body_dict (B : Builtins) (text : string) (d : gmap string pyval) :
  json_load B text = Some (PDict d) ->
  load_config_body B (Content text) = Ok (PDict (spec_merge d)).
Proof.
  intros Hj. unfold load_config_body, read_text.
  unfold mbind at 1 2, result_bind. rewrite Hj.
  rewrite merge_defaults_dict. fold default_map.
  assert (Hw : (d ∪ default_map) !! "window"
               = Some (match d !! "window" with Some v => v | None => default_window end)).
  { rewrite lookup_union. destruct (d !! "window"); reflexivity. }
  unfold mbind, result_bind, py_contains, py_getitem, py_setitem.
  rewrite bool_decide_eq_true_2 by (rewrite Hw; eauto).
  rewrite Hw. unfold spec_merge.
  destruct (d !! "window") as [[]|] eqn:Hd; try reflexivity.
  simpl is_dict. cbv iota. rewrite merge_defaults_dict. reflexivity.
Qed.

Lemma spec_merge_lookup (d : gmap string pyval) (k : string) :
  k <> "window" ->
  spec_merge d !! k = match d !! k with
                      | Some v => Some v
                      | None => default_map !! k
                      end.
Proof.
  intros Hk. unfold spec_merge. rewrite lookup_insert_ne by done.
  rewrite lookup_union. destruct (d !! k), (default_map !! k); reflexivity.
Qed.

Lemma spec_merge_window (d : gmap string pyval) :
  spec_merge d !! "window"
  = Some (match d !! "window" with
          | Some (PDict wd) => PDict (wd ∪ default_window_map)
          | _ => default_window
          end).
Proof. unfold spec_merge. by rewrite lookup_insert_eq. Qed.

Lemma load_config_eq (B : Builtins) (fs : filesystem) :
  load_config B fs
  = match fs "config.json" with
    | Missing => default
    | Unreadable _ => default
    | Content text =>
        match json_load B text with
        | Some (PDict d) => PDict (spec_merge d)
        | _ => default
        end
    end.
Proof.
  unfold load_config. destruct (fs "config.json") as [|e|text] eqn:Hf; simpl.
  - reflexivity.
  - reflexivity.
  - destruct (json_load B text) as [v|] eqn:Hj.
    + destruct (is_dict v) eqn:Hv.
      * destruct v; try discriminate.
        by rewrite (load_config_body_dict B text d Hj).
      * pose proof (load_config_body_not_dict B text v Hj Hv) as Hr.
        destruct (load_config_body B (Content text)); [discriminate|].
        destruct v; try discriminate; reflexivity.
    + unfold load_config_body, read_text. unfold mbind at 1 2, result_bind.
      rewrite Hj. reflexivity.
Qed.

(** C6, as the code has it: [load_config] returns the built-in defaults
    when the file is missing, and also when it exists but anything in the
    [try] block raises: reading, parsing, or merging into a parsed value
    that is not an object (the whole record, nothing salvaged). When the
    file parses to an object, absent top-level keys take their defaults,
    and [window] is treated on its own, as [spec_merge] says: an object
    gets its absent keys filled in, anything else is replaced by the
    default window while the other fields are kept. *)
Theorem load_config_cases (B : Builtins) (fs : filesystem) :
  load_config B fs
  = match fs "config.json" with
    | Missing => default
    | Unreadable _ => default
    | Content text =>
        match json_load B text with
        | Some (PDict d) => PDict (spec_merge d)
        | _ => default
        end
    end
  /\ (is_ok (load_config_body B (fs "config.json")) = false -> load_config B fs = default)
  /\ (forall d k, k <> "window" ->
        spec_merge d !! k = match d !! k with Some v => Some v | None => default_map !! k end)
  /\ (forall d, spec_merge d !! "window"
                = Some (match d !! "window" with
                        | Some (PDict wd) => PDict (wd ∪ default_window_map)
                        | _ => default_window
                        end))
  /\ (forall (wd : gmap string pyval) wk,
        (wd ∪ default_window_map) !! wk
        = match wd !! wk with Some v => Some v | None => default_window_map !! wk end).
Proof.
  split; [apply load_config_eq|]. split; [|split; [|split]].
  - unfold load_config. intros Hr.
    destruct (load_config_body B (fs "config.json")); [discriminate|].
    simpl. by destruct (negb _).
  - apply spec_merge_lookup.
  - apply spec_merge_window.
  - intros wd wk. rewrite lookup_union.
    destruct (wd !! wk), (default_window_map !! wk); reflexivity.
Qed.

Lemma load_config_cases_witness :
  load_config example_builtins fs_malformed_config = default.
Proof.
  apply (load_config_cases example_builtins fs_malformed_config).
  reflexivity.
Defined.

(** C6 as stated fails for a file that parses to an object whose
    [window] is not an object: the record is not the default one
    ([lock_seconds] is kept), yet the [window] that was present is
    overwritten by the default. *)
Lemma load_config_window_not_object :
  json_load example_builtins config_text_window_5
  = Some (PDict (<["window" := PInt 5]> {["lock_seconds" := PInt 10]}))
  /\ load_config example_builtins fs_config_window_5 <> default
  /\ exists d, load_config example_builtins fs_config_window_5 = PDict d
       /\ d !! "lock_seconds" = Some (PInt 10)
       /\ d !! "window" = Some default_window
       /\ d !! "window" <> Some (PInt 5).
Proof.
  split; [reflexivity|].
  assert (Hc : load_config example_builtins fs_config_window_5
               = PDict (<["window" := default_window]>
                          (<["lock_seconds" := PInt 10]> default_map))).
  { rewrite load_config_eq. vm_compute. reflexivity. }
  rewrite Hc. split.
  - intros Heq.
    apply (f_equal (fun v => match v with
                             | PDict m => m !! "lock_seconds"
                             | _ => None
                             end)) in Heq.
    vm_compute in Heq. discriminate.
  - eexists. split; [reflexivity|]. split; [reflexivity|].
    split; [reflexivity|]. vm_compute. discriminate.
Qed.

(** C7: a configuration file whose content is exactly
    [{"lock_seconds": 10}] gives the default record with [lock_seconds]
    set to 10: every other field is the default one. *)
Theorem load_config_only_lock_seconds (B : Builtins) (fs : filesystem) (text : string) :
  fs "config.json" = Content text ->
  json_load B text = Some (PDict {["lock_seconds" := PInt 10]}) ->
  load_config B fs = PDict (<["lock_seconds" := PInt 10]> default_map)
  /\ (forall d, load_config B fs = PDict d ->
        d !! "lock_seconds" = Some (PInt 10)
        /\ forall k, k <> "lock_seconds" -> d !! k = default_map !! k).
Proof.
  intros Hf Hj.
  assert (Hc : load_config B fs = PDict (<["lock_seconds" := PInt 10]> default_map)).
  { rewrite load_config_eq, Hf, Hj.
    vm_compute. reflexivity. }
  split; [exact Hc|].
  intros d Hd. rewrite Hc in Hd. injection Hd as <-. split.
  - by rewrite lookup_insert_eq.
  - intros k Hk. by rewrite lookup_insert_ne.
Qed.

Lemma load_config_only_lock_seconds_witness :
  load_config example_builtins fs_config_10
  = PDict (<["lock_seconds" := PInt 10]> default_map).
Proof.
  apply (load_config_only_lock_seconds example_builtins fs_config_10 config_text_10).
  - reflexivity.
  - reflexivity.
Defined.


(** ** The release sequence *)

Ltac destruct_state st :=
  destruct st as [[ls rem dl mt ct kh kp ch ti wi he ht fp inf cb]
                  [cc hk tm tc vis ec cl]];
  simpl in *.

Ltac case_flags P :=
  repeat match goal with
         | |- context [IS_WINDOWS P] => destruct (IS_WINDOWS P) eqn:?; simpl
         | |- context [raises P ?c] => destruct (raises P c) eqn:?; simpl
         | |- context [(?z =? 0)%Z] => destruct (z =? 0)%Z eqn:?; simpl
         end.

Lemma release_enforcement_window (P : Platform) (st : state) :
  (release_enforcement P st).1
  = set_close_btn true (set_info released_text
      (if IS_WINDOWS P
       then set_kb None false (set_cursor_hidden false
              (set_mouse_lock_timer None (set_deadline None
                 (set_countdown_timer None st.1))))
       else set_mouse_lock_timer None (set_deadline None
              (set_countdown_timer None st.1)))).
Proof.
  destruct_state st. unfold release_enforcement, uninstall_keyboard_blocker. simpl.
  destruct ct, mt, (IS_WINDOWS P), ch; reflexivity.
Qed.

Lemma release_enforcement_remaining (P : Platform) (st : state) :
  remaining (release_enforcement P st).1 = remaining st.1.
Proof. rewrite release_enforcement_window. by destruct (IS_WINDOWS P). Qed.

Lemma release_enforcement_deadline (P : Platform) (st : state) :
  _deadline (release_enforcement P st).1 = None.
Proof. rewrite release_enforcement_window. by destruct (IS_WINDOWS P). Qed.


Lemma release_enforcement_end_state (P : Platform) (st : state) :
  let st' := release_enforcement P st in
  _countdown_timer st'.1 = None /\ _mouse_lock_timer st'.1 = None
  /\ _deadline st'.1 = None /\ close_btn st'.1 = true /\ info st'.1 = released_text
  /\ (IS_WINDOWS P = true ->
      _cursor_hidden st'.1 = false /\ _kb_hook st'.1 = None /\ _kb_proc st'.1 = false).
Proof.
  cbv zeta. rewrite release_enforcement_window.
  destruct (IS_WINDOWS P); simpl; repeat split; congruence.
Qed.

Lemma release_enforcement_released (P : Platform) (st : state) :
  _countdown_timer st.1 = None -> _mouse_lock_timer st.1 = None ->
  (IS_WINDOWS P = true -> _cursor_hidden st.1 = false /\ _kb_hook st.1 = None) ->
  (release_enforcement P st).2
  = record (CloseBtnSetEnabled true) (record (InfoSetText released_text) st.2).
Proof.
  destruct_state st. intros -> -> HW.
  unfold release_enforcement, uninstall_keyboard_blocker. simpl.
  destruct (IS_WINDOWS P); simpl; [|reflexivity].
  destruct HW as [-> ->]; [done|]. reflexivity.
Qed.

Lemma release_enforcement_twice (P : Platform) (st : state) :
  (release_enforcement P (release_enforcement P st)).1 = (release_enforcement P st).1
  /\ system_state (release_enforcement P (release_enforcement P st)).2
     = system_state (release_enforcement P st).2
  /\ calls (release_enforcement P (release_enforcement P st)).2
     = (calls (release_enforcement P st).2
        ++ [InfoSetText released_text; CloseBtnSetEnabled true])%list.
Proof.
  pose proof (release_enforcement_end_state P st) as (Hc & Hm & Hd & Hb & Hi & HW).
  cbv zeta in *.
  rewrite (release_enforcement_released P (release_enforcement P st)); [|done|done|].
  2:{ intros HWt. destruct (HW HWt) as (? & ? & ?). done. }
  split; [|split].
  - rewrite (release_enforcement_window P (release_enforcement P st)).
    destruct (release_enforcement P st) as [[] os]. simpl in *.
    destruct (IS_WINDOWS P); [destruct HW as (-> & -> & ->); [done|] |]; by subst.
  - reflexivity.
  - simpl. by rewrite <- app_assoc.
Qed.

Lemma release_enforcement_timers (P : Platform) (st : state) (id : nat) :
  _countdown_timer st.1 = Some id \/ _mouse_lock_timer st.1 = Some id ->
  timers (release_enforcement P st).2 !! id = None.
Proof.
  destruct_state st.
  unfold release_enforcement, uninstall_keyboard_blocker, winapi_try, winapi_call.
  simpl. intros Hid.
  assert (Hgoal : (match mt with Some i => delete i | None => λ m, m end)
                    ((match ct with Some i => delete i | None => λ m, m end) tm)
                  !! id = None).
  { destruct Hid as [-> | ->].
    - destruct mt as [i|]; [destruct (decide (i = id)) as [->|]|].
      + apply lookup_delete_eq.
      + rewrite lookup_delete_ne by done. apply lookup_delete_eq.
      + apply lookup_delete_eq.
    - apply lookup_delete_eq. }
  destruct ct, mt, ch, kh as [h|]; simpl; case_flags P; exact Hgoal.
Qed.

Lemma release_enforcement_calls (P : Platform) (st : state) :
  releases (release_enforcement P st).2 = S (releases st.2)
  /\ cursor_restores (release_enforcement P st).2
     = (cursor_restores st.2
        + if IS_WINDOWS P && _cursor_hidden st.1 then 1 else 0)%nat.
Proof.
  destruct_state st.
  unfold release_enforcement, uninstall_keyboard_blocker, winapi_try, winapi_call.
  unfold releases, cursor_restores. simpl.
  destruct ct, mt, ch, kh as [h|]; simpl; case_flags P;
    rewrite ?List.filter_app, ?length_app; simpl; lia.
Qed.

(** ** The countdown tick *)

Lemma tick_cases (P : Platform) (now : Q) (st : state) :
  (_deadline st.1 = None /\ _tick P now st = st)
  \/ exists d, _deadline st.1 = Some d
     /\ ((Qceiling (d - now) <= 0
          /\ _tick P now st = release_enforcement P (set_remaining 0 st.1, st.2))
         \/ (0 < Qceiling (d - now) /\ Qceiling (d - now) = remaining st.1
             /\ _tick P now st = st)
         \/ (0 < Qceiling (d - now) /\ Qceiling (d - now) <> remaining st.1
             /\ _tick P now st
                = update_info (set_remaining (Qceiling (d - now)) st.1, st.2))).
Proof.
  unfold _tick. destruct (_deadline st.1) as [d|]; [right; exists d; split; [done|] | by left].
  destruct (Z.leb_spec (Qceiling (d - now)) 0) as [Hle|Hgt].
  - left. done.
  - right. destruct (Z.eqb_spec (Qceiling (d - now)) (remaining st.1)) as [Heq|Hne]; simpl.
    + left. done.
    + right. done.
Qed.


Lemma Qceiling_sub_mono (d t u : Q) : (t <= u)%Q -> Qceiling (d - u) <= Qceiling (d - t).
Proof.
  intros Htu. apply Qceiling_resp_le.
  unfold Qminus. apply Qplus_le_r. by apply Qopp_le_compat.
Qed.

Lemma tick_remaining (P : Platform) (now d : Q) (st : state) :
  _deadline st.1 = Some d ->
  remaining (_tick P now st).1 = Z.max 0 (Qceiling (d - now)).
Proof.
  intros Hd. destruct (tick_cases P now st) as [[Hn _]|(d' & Hd' & Hc)]; [congruence|].
  assert (d' = d) as -> by congruence.
  destruct Hc as [(Hle & ->)|[(Hgt & Heq & ->)|(Hgt & Hne & ->)]].
  - rewrite release_enforcement_remaining. simpl. lia.
  - lia.
  - destruct st as [[] os]. simpl. lia.
Qed.

Lemma tick_in_cycle (P : Platform) (d t now : Q) (st : state) :
  in_cycle d t st -> (t <= now)%Q ->
  in_cycle d now (_tick P now st)
  /\ remaining (_tick P now st).1 <= remaining st.1
  /\ 0 <= remaining (_tick P now st).1.
Proof.
  unfold in_cycle. intros Hin Ht. pose proof (Qceiling_sub_mono d t now Ht) as Hmono.
  destruct (tick_cases P now st) as [[Hn ->]|(d' & Hd' & Hc)].
  - destruct Hin as [(Hd & _)|(Hd & Hr)]; [congruence|].
    split; [by right|]. lia.
  - destruct Hin as [(Hd & Hr & Hi)|(Hd & _)]; [|congruence].
    assert (d' = d) as -> by congruence.
    destruct Hc as [(Hle & ->)|[(Hgt & Heq & ->)|(Hgt & Hne & ->)]].
    + rewrite release_enforcement_remaining, release_enforcement_deadline. simpl.
      split; [by right|]. lia.
    + split; [|lia]. left. split; [done|]. split; [lia|done].
    + destruct st as [[] os]. simpl in *. split; [|lia].
      left. split; [done|]. split; [lia|done].
Qed.

Lemma install_keyboard_blocker_window (P : Platform) (st : state) :
  exists hook proc,
    (install_keyboard_blocker P st).1 = set_kb hook proc st.1.
Proof.
  destruct_state st. unfold install_keyboard_blocker, winapi_call. simpl.
  destruct (negb (IS_WINDOWS P) || hook_truthy kh); [by exists kh, kp|].
  destruct (raises P GetModuleHandleW); simpl; [by eexists _, _|].
  destruct (raises P SetWindowsHookExW); simpl; by eexists _, _.
Qed.

Lemma start_enforcement_window (P : Platform) (t1 t2 : Q) (st : state) :
  let d := (t1 + inject_Z (lock_seconds st.1))%Q in
  let st' := start_enforcement P t1 t2 st in
  _deadline st'.1 = Some d
  /\ remaining st'.1 = Z.max 0 (Qceiling (d - t2))
  /\ info st'.1 = countdown_text (remaining st'.1)
  /\ close_btn st'.1 = close_btn st.1
  /\ lock_seconds st'.1 = lock_seconds st.1.
Proof.
  cbv zeta. unfold start_enforcement.
  pose proof (install_keyboard_blocker_window P st) as (hook & proc & Hi).
  destruct (IS_WINDOWS P) eqn:HW.
  - destruct (install_keyboard_blocker P st) as [w os]. simpl in Hi. subst w.
    unfold timer_new_start, winapi_call, _hold_cursor_center, update_info, info_setText.
    rewrite HW. simpl.
    destruct (raises P (ShowCursor false)); simpl; destruct (_center_point P); simpl; done.
  - unfold timer_new_start, winapi_call, _hold_cursor_center, update_info, info_setText.
    rewrite HW. simpl. done.
Qed.

Ltac solve_facts :=
  repeat split;
  first [ reflexivity
        | unfold releases; simpl;
          rewrite <- ?app_assoc, ?List.filter_app, ?length_app; simpl; lia ].

Lemma releases_record (c : call) (os : World) :
  releases (record c os) = (releases os + if is_release c then 1 else 0)%nat.
Proof.
  unfold releases, record. simpl. rewrite List.filter_app, length_app. simpl.
  destruct (is_release c); simpl; lia.
Qed.

Lemma system_state_record (c : call) (os : World) :
  system_state (record c os) = system_state os.
Proof. reflexivity. Qed.

Lemma winapi_try_facts (P : Platform) (c : winapi) (os : World) :
  releases (winapi_try P c os) = releases os
  /\ exit_code (winapi_try P c os) = exit_code os
  /\ visible (winapi_try P c os) = visible os
  /\ timers (winapi_try P c os) = timers os.
Proof.
  unfold winapi_try, winapi_call.
  destruct (raises P c); simpl.
  - solve_facts.
  - destruct c as [[|]| | | | |]; simpl; try destruct (hook_handle P =? 0);
      simpl; solve_facts.
Qed.

Lemma force_topmost_facts (P : Platform) (st : state) :
  (force_topmost P st).1 = st.1
  /\ system_state (force_topmost P st).2 = system_state st.2
  /\ releases (force_topmost P st).2 = releases st.2.
Proof.
  destruct st as [w os]. unfold force_topmost, winapi_try, winapi_call. simpl.
  destruct (IS_WINDOWS P); [destruct (raises P SetWindowPos)|]; simpl; solve_facts.
Qed.

Lemma center_on_screen_facts (P : Platform) (st : state) :
  (center_on_screen P st).1 = st.1
  /\ system_state (center_on_screen P st).2 = system_state st.2
  /\ releases (center_on_screen P st).2 = releases st.2.
Proof.
  destruct st as [w os]. unfold center_on_screen.
  destruct (primary_screen P); simpl; solve_facts.
Qed.

Lemma hold_cursor_center_facts (P : Platform) (st : state) :
  (_hold_cursor_center P st).1 = st.1
  /\ system_state (_hold_cursor_center P st).2 = system_state st.2
  /\ releases (_hold_cursor_center P st).2 = releases st.2.
Proof.
  destruct st as [w os]. unfold _hold_cursor_center.
  destruct (IS_WINDOWS P); [|done]. cbn [negb].
  destruct (_center_point P) as [cx cy]. unfold winapi_try, winapi_call.
  destruct (raises P (SetCursorPos cx cy)); simpl; solve_facts.
Qed.

Lemma install_keyboard_blocker_world (P : Platform) (st : state) :
  let st' := install_keyboard_blocker P st in
  releases st'.2 = releases st.2
  /\ exit_code st'.2 = exit_code st.2
  /\ visible st'.2 = visible st.2
  /\ timers st'.2 = timers st.2
  /\ timer_count st'.2 = timer_count st.2
  /\ cursor_count st'.2 = cursor_count st.2.
Proof.
  destruct_state st. unfold install_keyboard_blocker, winapi_call. simpl.
  destruct (negb (IS_WINDOWS P) || hook_truthy kh); [done|].
  destruct (raises P GetModuleHandleW); simpl; [solve_facts|].
  destruct (raises P SetWindowsHookExW); simpl; [solve_facts|].
  destruct (hook_handle P =? 0); simpl; solve_facts.
Qed.

Lemma install_keyboard_blocker_tracked (P : Platform) (st : state) :
  hooks_tracked P st -> hooks_tracked P (install_keyboard_blocker P st).
Proof.
  destruct_state st. unfold hooks_tracked, install_keyboard_blocker, winapi_call. simpl.
  intros Ht. destruct (IS_WINDOWS P) eqn:HW; simpl; [|done].
  destruct (hook_truthy kh) eqn:Hk; [done|].
  destruct Ht as [[-> _]|(_ & h & Hh & -> & ->)].
  2:{ simpl in Hk. apply negb_false_iff, Z.eqb_eq in Hk. done. }
  destruct (raises P GetModuleHandleW); simpl; [left; done|].
  destruct (raises P SetWindowsHookExW); simpl; [left; done|].
  destruct (Z.eqb_spec (hook_handle P) 0) as [H0|H0]; simpl; [left; done|].
  right. split; [done|]. exists (hook_handle P). split; [done|]. split; [done|].
  by rewrite (right_id_L ∅ (∪)).
Qed.


Lemma start_enforcement_world (P : Platform) (t1 t2 : Q) (st : state) :
  let st0 := if IS_WINDOWS P then install_keyboard_blocker P st else st in
  let st' := start_enforcement P t1 t2 st in
  hooks st'.2 = hooks st0.2
  /\ _kb_hook st'.1 = _kb_hook st0.1
  /\ releases st'.2 = releases st0.2
  /\ exit_code st'.2 = exit_code st0.2
  /\ visible st'.2 = visible st0.2
  /\ exists id, _countdown_timer st'.1 = Some id /\ timers st'.2 !! id = Some SlotTick.
Proof.
  cbv zeta. unfold start_enforcement.
  set (st0 := if IS_WINDOWS P then install_keyboard_blocker P st else st).
  destruct st0 as [[ls rem dl mt ct kh kp ch ti wi he ht fp inf cb]
                   [cc hk tm tc vis ec cl]].
  unfold timer_new_start, winapi_call, _hold_cursor_center, update_info, info_setText,
    winapi_try, winapi_call.
  destruct (_center_point P) as [cx cy].
  destruct (IS_WINDOWS P); cbn -[insert lookup];
    [destruct (raises P (ShowCursor false)); cbn -[insert lookup];
     destruct (raises P (SetCursorPos cx cy)); cbn -[insert lookup] |];
    (repeat split;
     [ reflexivity || solve_facts ..
     | eexists; split; [reflexivity | apply lookup_insert_eq] ]).
Qed.

(** ** Runs of countdown ticks *)

Lemma run_ticks_cons (P : Platform) (now : Q) (ts : list Q) (st : state) :
  run_ticks P (now :: ts) st = run_ticks P ts (_tick P now st).
Proof. reflexivity. Qed.

Lemma run_ticks_snoc (P : Platform) (now : Q) (ts : list Q) (st : state) :
  run_ticks P (ts ++ [now]) st = _tick P now (run_ticks P ts st).
Proof. unfold run_ticks. by rewrite foldl_app. Qed.

Lemma run_ticks_released (P : Platform) (ts : list Q) (st : state) :
  _deadline st.1 = None -> run_ticks P ts st = st.
Proof.
  intros Hd. induction ts as [|now ts IH]; [done|].
  rewrite run_ticks_cons. unfold _tick. rewrite Hd. exact IH.
Qed.

Lemma last_cons (u t : Q) (rest : list Q) : List.last (u :: rest) t = List.last rest u.
Proof.
  revert u t. induction rest as [|v rest IH]; intros u t; [done|].
  change (List.last (u :: v :: rest) t) with (List.last (v :: rest) t).
  by rewrite !IH.
Qed.

Lemma nondecreasing_snoc (t now : Q) (ts : list Q) :
  nondecreasing t (ts ++ [now]) <-> nondecreasing t ts /\ (List.last ts t <= now)%Q.
Proof.
  revert t. induction ts as [|u ts IH]; intros t.
  - simpl. tauto.
  - rewrite last_cons. simpl. rewrite IH. tauto.
Qed.

Lemma run_ticks_in_cycle (P : Platform) (d : Q) (ts : list Q) :
  forall (t : Q) (st : state),
    in_cycle d t st -> nondecreasing t ts ->
    in_cycle d (List.last ts t) (run_ticks P ts st)
    /\ remaining (run_ticks P ts st).1 <= remaining st.1.
Proof.
  induction ts as [|u ts IH]; intros t st Hin Hnd.
  - simpl. split; [done|lia].
  - destruct Hnd as [Htu Hnd]. rewrite run_ticks_cons, last_cons.
    destruct (tick_in_cycle P d t u st Hin Htu) as (Hin' & Hle & _).
    destruct (IH u _ Hin' Hnd) as [Hin'' Hle'']. split; [done|lia].
Qed.

Lemma start_enforcement_in_cycle (P : Platform) (t1 t2 : Q) (st : state) :
  in_cycle (t1 + inject_Z (lock_seconds st.1)) t2 (start_enforcement P t1 t2 st).
Proof.
  destruct (start_enforcement_window P t1 t2 st) as (Hd & Hr & Hi & _).
  left. done.
Qed.

Lemma tick_releases (P : Platform) (now : Q) (st : state) :
  releases (_tick P now st).2 = releases st.2
  \/ (releases (_tick P now st).2 = S (releases st.2)
      /\ _deadline (_tick P now st).1 = None).
Proof.
  destruct (tick_cases P now st) as [[_ ->]|(d & _ & Hc)]; [by left|].
  destruct Hc as [(_ & ->)|[(_ & _ & ->)|(_ & _ & ->)]].
  - right. split; [|apply release_enforcement_deadline].
    by destruct (release_enforcement_calls P (set_remaining 0 st.1, st.2)) as [-> _].
  - by left.
  - left. destruct st as [w os]. unfold update_info, info_setText.
    cbn [fst snd]. rewrite releases_record. simpl. lia.
Qed.

Lemma run_ticks_releases (P : Platform) (ts : list Q) :
  forall st : state, (releases (run_ticks P ts st).2 <= releases st.2 + 1)%nat.
Proof.
  induction ts as [|now ts IH]; intros st; [simpl; lia|].
  rewrite run_ticks_cons.
  destruct (tick_releases P now st) as [Heq|[Heq Hd]].
  - rewrite <- Heq. apply IH.
  - rewrite run_ticks_released by done. lia.
Qed.

(** ** The keyboard hook *)




Lemma release_enforcement_hooks (P : Platform) (st : state) :
  (forall h, raises P (UnhookWindowsHookEx h) = false) ->
  hooks_tracked P st ->
  hooks (release_enforcement P st).2 = ∅
  /\ _kb_hook (release_enforcement P st).1 = None.
Proof.
  intros Hun Ht. split.
  2:{ rewrite release_enforcement_window.
      destruct Ht as [[_ Hk]|(HW & _)]; destruct (IS_WINDOWS P); simpl; auto; done. }
  destruct_state st.
  unfold release_enforcement, uninstall_keyboard_blocker, winapi_try, winapi_call.
  unfold hooks_tracked in Ht. simpl in Ht.
  destruct Ht as [[-> Hk]|(HW & h & Hh & -> & ->)].
  - destruct ct, mt, ch, (IS_WINDOWS P), kh as [h|]; cbn -[difference];
      try destruct (raises P (ShowCursor true)); cbn -[difference];
      try destruct (h =? 0); cbn -[difference]; rewrite ?Hun; cbn -[difference];
      try reflexivity; apply empty_difference_L.
  - rewrite HW. apply Z.eqb_neq in Hh.
    destruct ct, mt, ch; cbn -[difference];
      try destruct (raises P (ShowCursor true)); cbn -[difference];
      rewrite Hh; cbn -[difference]; rewrite Hun; cbn -[difference];
      apply difference_diag_L.
Qed.



Lemma show_pre (P : Platform) (w : ReadWindow) (os : World) :
  let pre := force_topmost P (center_on_screen P (w, set_visible true os)) in
  pre.1 = w /\ hooks pre.2 = hooks os /\ releases pre.2 = releases os
  /\ exit_code pre.2 = exit_code os.
Proof.
  cbv zeta.
  destruct (force_topmost_facts P (center_on_screen P (w, set_visible true os)))
    as (H1 & H2 & H3).
  destruct (center_on_screen_facts P (w, set_visible true os)) as (H4 & H5 & H6).
  rewrite H1, H4, H3, H6. unfold system_state in *. simpl in *.
  split; [done|]. split; [congruence|]. split; [done|congruence].
Qed.










(** ** Close requests and dismissal *)

(** C9: a close request is rejected in every state: the handler marks
    the event ignored, so the window stays as visible as it was, and
    neither the attributes of the window (remaining, deadline, timers,
    hook) nor the system (running timers, installed hooks, cursor, exit
    status) change. *)
Theorem closeEvent_rejected (P : Platform) (event : QCloseEvent) (st : state) :
  accepted (closeEvent P event st).1 = false
  /\ (closeEvent P event st).2.1 = st.1
  /\ system_state (closeEvent P event st).2.2 = system_state st.2
  /\ releases (closeEvent P event st).2.2 = releases st.2
  /\ (close_request P st).1 = st.1
  /\ system_state (close_request P st).2 = system_state st.2
  /\ visible (close_request P st).2 = visible st.2
  /\ exit_code (close_request P st).2 = exit_code st.2.
Proof.
  destruct (force_topmost_facts P (st.1, record EventIgnore st.2)) as (H1 & H2 & H3).
  assert (Hs : system_state (closeEvent P event st).2.2 = system_state st.2).
  { unfold closeEvent. cbn [fst snd]. rewrite H2. reflexivity. }
  assert (Hc : close_request P st = (closeEvent P event st).2).
  { reflexivity. }
  split; [reflexivity|]. split; [exact H1|]. split; [exact Hs|].
  split.
  { unfold closeEvent. cbn [fst snd] in *. rewrite H3, releases_record. simpl. lia. }
  rewrite Hc. split; [exact H1|]. split; [exact Hs|].
  unfold system_state in Hs. split; congruence.
Qed.

Lemma init_ok (B : Builtins) (CFG : pyval) (RULES_HTML : string) (arg : Z)
    (w : ReadWindow) :
  init B CFG RULES_HTML arg = Ok w ->
  init_lock_seconds B CFG arg = Ok (lock_seconds w)
  /\ remaining w = lock_seconds w
  /\ _deadline w = None /\ _kb_hook w = None /\ _cursor_hidden w = false
  /\ _countdown_timer w = None /\ _mouse_lock_timer w = None
  /\ html w = RULES_HTML /\ close_btn w = false
  /\ info w = intro_text (lock_seconds w).
Proof.
  unfold init, mbind, result_bind.
  destruct (init_lock_seconds B CFG arg) as [lock|]; [|done].
  destruct (as_str _) as [title|]; [|done].
  destruct (match cfg_get CFG "window" (PDict ∅) with PDict d => Ok d | _ => _ end)
    as [win|]; [|done].
  destruct (py_int B (dict_get win "width" (PInt 900))) as [wd|]; [|done].
  destruct (py_int B (dict_get win "height" (PInt 600))) as [hg|]; [|done].
  destruct (py_int B (cfg_get CFG "font_point_size" (PInt 12))) as [fps|]; [|done].
  intros [= <-]. done.
Qed.

Lemma safe_close_facts (P : Platform) (st : state) :
  (safe_close P st).1 = (release_enforcement P st).1
  /\ exit_code (safe_close P st).2 = Some 0
  /\ calls (safe_close P st).2
     = (calls (release_enforcement P st).2 ++ [AppQuit; SysExit 0])%list
  /\ hooks (safe_close P st).2 = hooks (release_enforcement P st).2
  /\ timers (safe_close P st).2 = timers (release_enforcement P st).2
  /\ cursor_count (safe_close P st).2 = cursor_count (release_enforcement P st).2.
Proof.
  unfold safe_close. destruct (release_enforcement P st) as [w os]. simpl.
  rewrite <- app_assoc. done.
Qed.



Lemma show_window (P : Platform) (w : ReadWindow) (os : World) (t1 t2 : Q) :
  let st := show P t1 t2 (w, os) in
  _deadline st.1 = Some (t1 + inject_Z (lock_seconds w))%Q
  /\ remaining st.1 = Z.max 0 (Qceiling (t1 + inject_Z (lock_seconds w) - t2))
  /\ close_btn st.1 = close_btn w
  /\ lock_seconds st.1 = lock_seconds w
  /\ exists id, _countdown_timer st.1 = Some id /\ timers st.2 !! id = Some SlotTick.
Proof.
  cbv zeta. unfold show, showEvent. cbn [fst snd].
  destruct (show_pre P w os) as (H1 & _).
  destruct (start_enforcement_window P t1 t2
              (force_topmost P (center_on_screen P (w, set_visible true os))))
    as (Hd & Hr & _ & Hb & Hl).
  destruct (start_enforcement_world P t1 t2
              (force_topmost P (center_on_screen P (w, set_visible true os))))
    as (_ & _ & _ & _ & _ & Hid).
  rewrite H1 in *. done.
Qed.




(** ** Start-up *)

Lemma load_config_is_dict (B : Builtins) (fs : filesystem) :
  exists d, load_config B fs = PDict d.
Proof.
  rewrite load_config_eq.
  destruct (fs "config.json") as [|e|text]; [by eexists|by eexists|].
  destruct (json_load B text) as [[]|]; by eexists.
Qed.



(** ** The lock time *)


(** ** The release sequence and the hook *)

Lemma release_enforcement_unhook (P : Platform) (st : state) :
  let st' := release_enforcement P st in
  unhooks st'.2
  = (unhooks st.2 + if IS_WINDOWS P && hook_truthy (_kb_hook st.1) then 1 else 0)%nat
  /\ hooks st'.2
     = (if IS_WINDOWS P
        then match _kb_hook st.1 with
             | Some h =>
                 if hook_truthy (Some h) && negb (raises P (UnhookWindowsHookEx h))
                 then hooks st.2 ∖ {[h]}
                 else hooks st.2
             | None => hooks st.2
             end
        else hooks st.2)
  /\ (forall h, IS_WINDOWS P = true -> _kb_hook st.1 = Some h -> h <> 0 ->
        In (Api (UnhookWindowsHookEx h)) (calls st'.2)).
Proof.
  cbv zeta. destruct_state st.
  unfold release_enforcement, uninstall_keyboard_blocker, winapi_try, winapi_call.
  unfold unhooks. simpl.
  split; [|split].
  - destruct ct, mt, ch, kh as [h|]; simpl; case_flags P;
      rewrite ?List.filter_app, ?length_app; simpl; lia.
  - destruct ct, mt, ch, kh as [h|]; simpl; case_flags P; reflexivity.
  - intros h HW -> Hh. rewrite HW.
    destruct h as [|p|p]; [done| |];
      destruct ct, mt, ch; simpl; case_flags P;
        rewrite ?in_app_iff; simpl; tauto.
Qed.

(** C4: running the release sequence a second time changes neither the
    window nor the system (only the label text and the enabling of the
    button are set again, to the same values): timers stopped and
    cleared, deadline [None], the cursor shown again once and not a second
    time, the hook reference cleared, the button enabled. A hook the window
    holds is taken out by one call of [UnhookWindowsHookEx] on its handle,
    which leaves the process without that hook unless the call fails; the
    second run makes no such call. Countdown ticks run the release
    sequence at most once, whatever their number. *)
Theorem release_enforcement_idempotent (P : Platform) (st : state) :
  let once := release_enforcement P st in
  let twice := release_enforcement P once in
  twice.1 = once.1
  /\ system_state twice.2 = system_state once.2
  /\ calls twice.2
     = (calls once.2 ++ [InfoSetText released_text; CloseBtnSetEnabled true])%list
  /\ _countdown_timer once.1 = None /\ _mouse_lock_timer once.1 = None
  /\ (forall id, _countdown_timer st.1 = Some id \/ _mouse_lock_timer st.1 = Some id ->
        timers once.2 !! id = None)
  /\ _deadline once.1 = None
  /\ cursor_restores once.2
     = (cursor_restores st.2 + if IS_WINDOWS P && _cursor_hidden st.1 then 1 else 0)%nat
  /\ cursor_restores twice.2 = cursor_restores once.2
  /\ (IS_WINDOWS P = true ->
      _cursor_hidden once.1 = false /\ _kb_hook once.1 = None /\ _kb_proc once.1 = false)
  /\ close_btn once.1 = true
  /\ (forall ts, (releases (run_ticks P ts st).2 <= releases st.2 + 1)%nat)
  /\ unhooks once.2
     = (unhooks st.2 + if IS_WINDOWS P && hook_truthy (_kb_hook st.1) then 1 else 0)%nat
  /\ unhooks twice.2 = unhooks once.2
  /\ hooks twice.2 = hooks once.2
  /\ (forall h, IS_WINDOWS P = true -> _kb_hook st.1 = Some h -> h <> 0 ->
        In (Api (UnhookWindowsHookEx h)) (calls once.2)
        /\ (raises P (UnhookWindowsHookEx h) = false ->
            hooks once.2 = hooks st.2 ∖ {[h]} /\ h ∉ hooks once.2)
        /\ (raises P (UnhookWindowsHookEx h) = true -> hooks once.2 = hooks st.2))
  /\ (hooks_tracked P st -> (forall h, raises P (UnhookWindowsHookEx h) = false) ->
      hooks once.2 = ∅ /\ hooks twice.2 = ∅).
Proof.
  cbv zeta.
  destruct (release_enforcement_twice P st) as (H1 & H2 & H3).
  destruct (release_enforcement_end_state P st) as (Hc & Hm & Hd & Hb & Hi & HW).
  destruct (release_enforcement_calls P st) as [_ Hr].
  destruct (release_enforcement_calls P (release_enforcement P st)) as [_ Hr2].
  destruct (release_enforcement_unhook P st) as (Hu & Hh & Hin).
  destruct (release_enforcement_unhook P (release_enforcement P st)) as (Hu2 & Hh2 & _).
  cbv zeta in *.
  assert (Hhooks2 : hooks (release_enforcement P (release_enforcement P st)).2
                    = hooks (release_enforcement P st).2).
  { rewrite Hh2. destruct (IS_WINDOWS P); [|done].
    destruct HW as (_ & -> & _); done. }
  split; [done|]. split; [done|]. split; [done|]. split; [done|]. split; [done|].
  split; [intros id Hid; by apply release_enforcement_timers|].
  split; [done|]. split; [done|].
  split.
  { rewrite Hr2.
    destruct (IS_WINDOWS P) eqn:HWin;
      [destruct HW as (Hch & _); [done|]; rewrite Hch|]; simpl; lia. }
  split; [done|]. split; [done|].
  split; [intros ts; apply run_ticks_releases|].
  split; [done|].
  split.
  { rewrite Hu2.
    destruct (IS_WINDOWS P) eqn:HWin;
      [destruct HW as (_ & Hk & _); [done|]; rewrite Hk|]; simpl; lia. }
  split; [done|].
  split.
  { intros h HWin Hk Hne. split; [by apply Hin|].
    rewrite Hh, HWin, Hk. apply Z.eqb_neq in Hne. unfold hook_truthy. rewrite Hne.
    cbn [negb andb].
    split.
    - intros ->. simpl. split; [done|].
      apply not_elem_of_difference. right. by apply elem_of_singleton.
    - intros ->. done. }
  intros Ht Hok. rewrite Hhooks2.
  assert (hooks (release_enforcement P st).2 = ∅) as ->; [|done].
  by destruct (release_enforcement_hooks P st Hok Ht).
Qed.

Lemma release_enforcement_idempotent_witness :
  In (Api (UnhookWindowsHookEx 77)) (calls (release_enforcement windows_ok locked_example).2)
  /\ (77 ∉ hooks (release_enforcement windows_ok locked_example).2)
  /\ _kb_hook (release_enforcement windows_ok locked_example).1 = None.
Proof.
  pose proof (release_enforcement_idempotent windows_ok locked_example) as H.
  cbv zeta in H.
  destruct H as (_ & _ & _ & _ & _ & _ & _ & _ & _ & Hw & _ & _ & _ & _ & _ & Hh & _).
  assert (HW : IS_WINDOWS windows_ok = true) by reflexivity.
  assert (Hk : _kb_hook locked_example.1 = Some 77) by (vm_compute; reflexivity).
  assert (Hne : 77 <> 0) by discriminate.
  assert (Hr : raises windows_ok (UnhookWindowsHookEx 77) = false) by reflexivity.
  destruct (Hh 77 HW Hk Hne) as (Hin & Hok & _).
  destruct (Hok Hr) as [_ Hnot].
  destruct (Hw HW) as (_ & Hnone & _).
  exact (conj Hin (conj Hnot Hnone)).
Defined.

(** ** The countdown in floating point *)

Lemma exact_arith_start_enforcement (P : Platform) (t1 t2 : Q) (st : state) :
  Fl.start_enforcement exact_arith P t1 t2 st = Ok (start_enforcement P t1 t2 st).
Proof.
  unfold Fl.start_enforcement, start_enforcement. simpl.
  destruct (if IS_WINDOWS P then install_keyboard_blocker P st else st) as [w os].
  unfold timer_new_start. cbn [fst snd].
  destruct (IS_WINDOWS P); [destruct (winapi_call P (ShowCursor false) _)|]; reflexivity.
Qed.

Lemma exact_arith_tick (P : Platform) (now : Q) (st : state) :
  Fl._tick exact_arith P now st = _tick P now st.
Proof. reflexivity. Qed.

Lemma exact_arith_monotone : sub_monotone exact_arith.
Proof.
  intros d t u Htu. simpl. unfold Qminus. apply Qplus_le_r. by apply Qopp_le_compat.
Qed.

Lemma bounded_arith_monotone : sub_monotone bounded_arith.
Proof. exact exact_arith_monotone. Qed.

Lemma fl_start_enforcement_cases (A : FloatArith) (P : Platform) (t1 t2 : Q) (st : state) :
  match float_of_int A (lock_seconds st.1) with
  | None => Fl.start_enforcement A P t1 t2 st = Raise OverflowError
  | Some secs =>
      match float_add A t1 secs with
      | None => Fl.start_enforcement A P t1 t2 st = Raise OverflowError
      | Some d =>
          exists st', Fl.start_enforcement A P t1 t2 st = Ok st'
            /\ _deadline st'.1 = Some d
            /\ remaining st'.1 = Z.max 0 (Qceiling (float_sub A d t2))
            /\ info st'.1 = countdown_text (remaining st'.1)
            /\ close_btn st'.1 = close_btn st.1
            /\ lock_seconds st'.1 = lock_seconds st.1
      end
  end.
Proof.
  unfold Fl.start_enforcement.
  pose proof (install_keyboard_blocker_window P st) as (hook & proc & Hi).
  destruct (IS_WINDOWS P) eqn:HW.
  - destruct (install_keyboard_blocker P st) as [w os]. simpl in Hi. subst w.
    destruct st as [[ls rem dl mt ct kh kp ch ti wi he ht fp inf cb] os0].
    unfold timer_new_start, winapi_call, _hold_cursor_center, update_info, info_setText.
    rewrite HW. simpl.
    destruct (raises P (ShowCursor false)); simpl;
      (destruct (float_of_int A ls) as [secs|]; [|reflexivity]);
      (destruct (float_add A t1 secs) as [d|]; [|reflexivity]);
      destruct (_center_point P); simpl; eexists; (split; [reflexivity|]); simpl; done.
  - destruct st as [[ls rem dl mt ct kh kp ch ti wi he ht fp inf cb] os0].
    unfold timer_new_start, winapi_call, _hold_cursor_center, update_info, info_setText.
    rewrite HW. simpl.
    destruct (float_of_int A ls) as [secs|]; [|reflexivity].
    destruct (float_add A t1 secs) as [d|]; [|reflexivity].
    eexists. split; [reflexivity|]. simpl. done.
Qed.

Lemma fl_tick_cases (A : FloatArith) (P : Platform) (now : Q) (st : state) :
  (_deadline st.1 = None /\ Fl._tick A P now st = st)
  \/ exists d, _deadline st.1 = Some d
     /\ ((Qceiling (float_sub A d now) <= 0
          /\ Fl._tick A P now st = release_enforcement P (set_remaining 0 st.1, st.2))
         \/ (0 < Qceiling (float_sub A d now)
             /\ Qceiling (float_sub A d now) = remaining st.1
             /\ Fl._tick A P now st = st)
         \/ (0 < Qceiling (float_sub A d now)
             /\ Qceiling (float_sub A d now) <> remaining st.1
             /\ Fl._tick A P now st
                = update_info (set_remaining (Qceiling (float_sub A d now)) st.1, st.2))).
Proof.
  unfold Fl._tick.
  destruct (_deadline st.1) as [d|]; [right; exists d; split; [done|] | by left].
  destruct (Z.leb_spec (Qceiling (float_sub A d now)) 0) as [Hle|Hgt].
  - left. done.
  - right.
    destruct (Z.eqb_spec (Qceiling (float_sub A d now)) (remaining st.1)) as [Heq|Hne]; simpl.
    + left. done.
    + right. done.
Qed.

Lemma fl_tick_remaining (A : FloatArith) (P : Platform) (now d : Q) (st : state) :
  _deadline st.1 = Some d ->
  remaining (Fl._tick A P now st).1 = Z.max 0 (Qceiling (float_sub A d now)).
Proof.
  intros Hd. destruct (fl_tick_cases A P now st) as [[Hn _]|(d' & Hd' & Hc)]; [congruence|].
  assert (d' = d) as -> by congruence.
  destruct Hc as [(Hle & ->)|[(Hgt & Heq & ->)|(Hgt & Hne & ->)]].
  - rewrite release_enforcement_remaining. simpl. lia.
  - lia.
  - destruct st as [[] os]. simpl. lia.
Qed.

Lemma fl_tick_in_cycle (A : FloatArith) (P : Platform) (d t now : Q) (st : state) :
  sub_monotone A ->
  Fl.in_cycle A d t st -> (t <= now)%Q ->
  Fl.in_cycle A d now (Fl._tick A P now st)
  /\ remaining (Fl._tick A P now st).1 <= remaining st.1
  /\ 0 <= remaining (Fl._tick A P now st).1.
Proof.
  unfold Fl.in_cycle. intros HA Hin Ht.
  pose proof (Qceiling_resp_le _ _ (HA d t now Ht)) as Hmono.
  destruct (fl_tick_cases A P now st) as [[Hn ->]|(d' & Hd' & Hc)].
  - destruct Hin as [(Hd & _)|(Hd & Hr)]; [congruence|].
    split; [by right|]. lia.
  - destruct Hin as [(Hd & Hr & Hi)|(Hd & _)]; [|congruence].
    assert (d' = d) as -> by congruence.
    destruct Hc as [(Hle & ->)|[(Hgt & Heq & ->)|(Hgt & Hne & ->)]].
    + rewrite release_enforcement_remaining, release_enforcement_deadline. simpl.
      split; [by right|]. lia.
    + split; [|lia]. left. split; [done|]. split; [lia|done].
    + destruct st as [[] os]. simpl in *. split; [|lia].
      left. split; [done|]. split; [lia|done].
Qed.

Lemma fl_run_ticks_cons (A : FloatArith) (P : Platform) (now : Q) (ts : list Q) (st : state) :
  Fl.run_ticks A P (now :: ts) st = Fl.run_ticks A P ts (Fl._tick A P now st).
Proof. reflexivity. Qed.

Lemma fl_run_ticks_snoc (A : FloatArith) (P : Platform) (now : Q) (ts : list Q) (st : state) :
  Fl.run_ticks A P (ts ++ [now]) st = Fl._tick A P now (Fl.run_ticks A P ts st).
Proof. unfold Fl.run_ticks. by rewrite foldl_app. Qed.

Lemma fl_run_ticks_in_cycle (A : FloatArith) (P : Platform) (d : Q) (ts : list Q) :
  sub_monotone A ->
  forall (t : Q) (st : state),
    Fl.in_cycle A d t st -> nondecreasing t ts ->
    Fl.in_cycle A d (List.last ts t) (Fl.run_ticks A P ts st)
    /\ remaining (Fl.run_ticks A P ts st).1 <= remaining st.1.
Proof.
  intros HA. induction ts as [|u ts IH]; intros t st Hin Hnd.
  - simpl. split; [done|lia].
  - destruct Hnd as [Htu Hnd]. rewrite fl_run_ticks_cons, last_cons.
    destruct (fl_tick_in_cycle A P d t u st HA Hin Htu) as (Hin' & Hle & _).
    destruct (IH u _ Hin' Hnd) as [Hin'' Hle'']. split; [done|lia].
Qed.

(** C3: in a lock cycle, after every countdown tick [remaining] is
    [ceil(deadline - now)] clamped at 0, the difference being the float
    one and the deadline the one [start_enforcement] stored; over ticks
    whose clock readings never go back it never increases and is never
    negative; and a tick touches the countdown text only when the new
    value differs from the one shown. *)
Theorem countdown_remaining (A : FloatArith) (P : Platform) (st0 locked : state)
    (t1 t2 now : Q) (ts : list Q) :
  sub_monotone A ->
  Fl.start_enforcement A P t1 t2 st0 = Ok locked ->
  nondecreasing t2 (ts ++ [now]) ->
  let st := Fl.run_ticks A P ts locked in
  let st' := Fl._tick A P now st in
  (exists d, _deadline locked.1 = Some d
     /\ remaining locked.1 = Z.max 0 (Qceiling (float_sub A d t2)))
  /\ (forall d, _deadline st.1 = Some d ->
        _deadline locked.1 = Some d
        /\ remaining st'.1 = Z.max 0 (Qceiling (float_sub A d now)))
  /\ remaining st'.1 <= remaining st.1
  /\ remaining st.1 <= remaining locked.1
  /\ 0 <= remaining st'.1
  /\ (LOCKED st -> info st.1 = countdown_text (remaining st.1))
  /\ (forall d, _deadline st.1 = Some d -> 0 < Qceiling (float_sub A d now) ->
        (Qceiling (float_sub A d now) = remaining st.1 -> st' = st)
        /\ (Qceiling (float_sub A d now) <> remaining st.1 ->
            info st'.1 = countdown_text (Qceiling (float_sub A d now))
            /\ calls st'.2
               = (calls st.2
                  ++ [InfoSetText (countdown_text (Qceiling (float_sub A d now)))])%list)).
Proof.
  intros HA Hstart Hnd. cbv zeta. apply nondecreasing_snoc in Hnd as [Hnd Hlast].
  pose proof (fl_start_enforcement_cases A P t1 t2 st0) as Hc.
  destruct (float_of_int A (lock_seconds st0.1)) as [secs|]; [|congruence].
  destruct (float_add A t1 secs) as [d0|]; [|congruence].
  destruct Hc as (st1 & Hst1 & Hd0 & Hr0 & Hi0 & _).
  assert (st1 = locked) as -> by congruence.
  assert (Hcyc : Fl.in_cycle A d0 t2 locked) by (left; done).
  destruct (fl_run_ticks_in_cycle A P d0 ts HA t2 _ Hcyc Hnd) as [Hin Hle].
  destruct (fl_tick_in_cycle A P _ _ now _ HA Hin Hlast) as (Hin' & Hle' & Hpos).
  set (st := Fl.run_ticks A P ts locked) in *.
  split; [by exists d0|].
  split.
  { intros d Hd. split; [|by apply fl_tick_remaining].
    destruct Hin as [(Hd' & _)|(Hd' & _)]; congruence. }
  split; [done|]. split; [done|]. split; [done|]. split.
  { intros HL. destruct Hin as [(_ & _ & Hi)|(Hd' & _)]; [done|]. by destruct HL. }
  intros d Hd Hgt.
  destruct (fl_tick_cases A P now st) as [[Hn _]|(d' & Hd' & Hcs)]; [congruence|].
  assert (d' = d) as -> by congruence.
  destruct Hcs as [(Hle0 & _)|[(_ & Heq & Ht)|(_ & Hne & Ht)]]; [lia| |].
  - split; [done|]. intros Hne. done.
  - split; [done|]. intros _. rewrite Ht. destruct st as [[] os]. done.
Qed.

Lemma countdown_remaining_witness :
  remaining (Fl._tick bounded_arith windows_ok 2
               (Fl.run_ticks bounded_arith windows_ok [1%Q] locked_example)).1
  <= remaining (Fl.run_ticks bounded_arith windows_ok [1%Q] locked_example).1.
Proof.
  apply (countdown_remaining bounded_arith windows_ok
           (force_topmost windows_ok
              (center_on_screen windows_ok
                 (default_window_object, set_visible true fresh_world)))
           locked_example 0 0 2 [1%Q]).
  - exact bounded_arith_monotone.
  - reflexivity.
  - simpl. repeat split; discriminate.
Defined.

(** ** The lock time and the deadline *)





(** ** A rules file that cannot be read *)

(** C2, at a rules file that exists but cannot be read: [load_rules_html]
    reads it outside any [try], so the error of the read leaves the
    function and start-up fails at module level, where C2 has the
    placeholder returned and start-up going on. The sibling [load_config]
    catches the same error of its own file and returns the defaults. *)
Lemma unreadable_rules_raise :
  exists_ (fs_unreadable_rules "rules.md") = true
  /\ load_rules_html example_builtins fs_unreadable_rules "rules.md" = Raise OSError
  /\ load_rules_html example_builtins fs_unreadable_rules "rules.md" <> Ok rules_not_found
  /\ main example_builtins windows_ok fs_unreadable_rules fresh_world 0 0 = Raise OSError
  /\ load_config example_builtins fs_unreadable_config = default.
Proof.
  split; [reflexivity|]. split; [reflexivity|]. split; [discriminate|].
  split; vm_compute; reflexivity.
Qed.

(** * Further properties *)

(** ** Rendering the rules *)

Lemma has_char_append (c : ascii) (s1 s2 : string) :
  has_char c (s1 +:+ s2) = has_char c s1 || has_char c s2.
Proof.
  induction s1 as [|a s1 IH]; simpl; [done|]. rewrite IH. by rewrite orb_assoc.
Qed.

Lemma prefix_single (d a : ascii) (rest : string) :
  String.prefix (String d EmptyString) (String a rest) = Ascii.eqb a d.
Proof.
  cbn [String.prefix]. destruct (ascii_dec d a) as [->|Hne].
  - rewrite Ascii.eqb_refl. by destruct rest.
  - symmetry. apply Ascii.eqb_neq. congruence.
Qed.

Lemma replace_single_step (d a : ascii) (new rest : string) :
  replace (String d EmptyString) new (String a rest)
  = if Ascii.eqb a d
    then new +:+ replace (String d EmptyString) new rest
    else String a (replace (String d EmptyString) new rest).
Proof.
  unfold replace. cbn [replace_from]. rewrite prefix_single.
  destruct (Ascii.eqb a d); reflexivity.
Qed.

Lemma replace_single_removes (c : ascii) (new s : string) :
  has_char c new = false ->
  has_char c (replace (String c EmptyString) new s) = false.
Proof.
  intros Hn. induction s as [|a s IH]; [done|].
  rewrite replace_single_step. destruct (Ascii.eqb a c) eqn:Ha.
  - by rewrite has_char_append, Hn, IH.
  - simpl. by rewrite Ha, IH.
Qed.

Lemma replace_single_keeps_absent (c d : ascii) (new s : string) :
  has_char c new = false -> has_char c s = false ->
  has_char c (replace (String d EmptyString) new s) = false.
Proof.
  intros Hn. induction s as [|a s IH]; [done|].
  simpl. intros Hs. apply orb_false_iff in Hs as [Ha Hs].
  rewrite replace_single_step. destruct (Ascii.eqb a d).
  - rewrite has_char_append, Hn. by apply IH.
  - simpl. rewrite Ha. by apply IH.
Qed.

Lemma replace_single_absent (d : ascii) (new s : string) :
  has_char d s = false -> replace (String d EmptyString) new s = s.
Proof.
  induction s as [|a s IH]; [done|].
  simpl. intros Hs. apply orb_false_iff in Hs as [Ha Hs].
  rewrite replace_single_step, Ha. by rewrite IH.
Qed.

(** X1: without the [markdown] module a readable rules file is shown as
    [<pre>...</pre>] whose body has no [<] and no [>] left, so nothing in
    the file can act as markup; a text without [&], [<] and [>] is shown
    as it is. *)
Theorem load_rules_html_pre_escaped (B : Builtins) (fs : filesystem)
    (markdown_file text : string) :
  markdown B = None -> fs markdown_file = Content text ->
  load_rules_html B fs markdown_file = Ok ("<pre>" +:+ escape_pre text +:+ "</pre>")
  /\ has_char "<" (escape_pre text) = false
  /\ has_char ">" (escape_pre text) = false
  /\ (has_char "&" text = false -> has_char "<" text = false ->
      has_char ">" text = false -> escape_pre text = text).
Proof.
  intros Hm Hf. split.
  { unfold load_rules_html. rewrite Hf, Hm. reflexivity. }
  unfold escape_pre. split; [|split].
  - apply replace_single_keeps_absent; [reflexivity|].
    apply replace_single_removes. reflexivity.
  - apply replace_single_removes. reflexivity.
  - intros Ha Hl Hg. by rewrite (replace_single_absent "&"), (replace_single_absent "<"),
      (replace_single_absent ">").
Qed.

Lemma load_rules_html_pre_escaped_witness :
  load_rules_html example_builtins
    (fun path => if String.eqb path "rules.md" then Content "a<b>&c" else Missing)
    "rules.md"
  = Ok "<pre>a&lt;b&gt;&amp;c</pre>".
Proof.
  apply (load_rules_html_pre_escaped example_builtins
           (fun path => if String.eqb path "rules.md" then Content "a<b>&c" else Missing)
           "rules.md" "a<b>&c"); reflexivity.
Defined.

Lemma replace_absent (old new s : string) :
  occurs old s = false -> replace old new s = s.
Proof.
  unfold replace. induction s as [|a s IH]; [done|].
  cbn [occurs replace_from]. intros Ho. apply orb_false_iff in Ho as [Hp Ho].
  rewrite Hp. by rewrite IH.
Qed.

(** X2: with the [markdown] module, a readable rules file whose rendering
    contains neither the signature paragraph nor the date paragraph comes
    out as the rendering itself wrapped in the heading style: nothing else
    in it is rewritten. *)
Theorem load_rules_html_no_signature (B : Builtins) (fs : filesystem)
    (markdown_file text : string) (render : string -> string) :
  markdown B = Some render -> fs markdown_file = Content text ->
  occurs "<p>桂林中学图书馆</p>" (render text) = false ->
  occurs "<p>2025年10月1日</p>" (render text) = false ->
  load_rules_html B fs markdown_file = Ok (styled_html (render text)).
Proof.
  intros Hm Hf H1 H2. unfold load_rules_html. rewrite Hf, Hm. simpl.
  rewrite (replace_absent _ _ (render text) H1).
  by rewrite (replace_absent _ _ (render text) H2).
Qed.

Lemma load_rules_html_no_signature_witness :
  load_rules_html
    {| json_load := fun _ => None;
       markdown := Some (fun text => "<p>" +:+ text +:+ "</p>");
       int_of_str := fun _ => None |}
    (fun path => if String.eqb path "rules.md" then Content "rule" else Missing)
    "rules.md"
  = Ok (styled_html "<p>rule</p>").
Proof.
  apply (load_rules_html_no_signature
           {| json_load := fun _ => None;
              markdown := Some (fun text => "<p>" +:+ text +:+ "</p>");
              int_of_str := fun _ => None |}
           (fun path => if String.eqb path "rules.md" then Content "rule" else Missing)
           "rules.md" "rule" (fun text => "<p>" +:+ text +:+ "</p>"));
    reflexivity.
Defined.

(** ** Placing the window and the pointer *)

(** X3: with a primary screen, [center_on_screen] makes one move, to the
    position that leaves the same margin on both sides of the window up
    to one pixel (the extra pixel goes right and below), also when the
    window is larger than the screen; without a primary screen it does
    nothing. The attributes of the window and the system are untouched. *)
Theorem center_on_screen_centred (P : Platform) (st : state) :
  (center_on_screen P st).1 = st.1
  /\ system_state (center_on_screen P st).2 = system_state st.2
  /\ (primary_screen P = None -> center_on_screen P st = st)
  /\ (forall geo, primary_screen P = Some geo ->
        exists x y,
          calls (center_on_screen P st).2 = (calls st.2 ++ [WindowMove x y])%list
          /\ (let left := x - rx geo in
              let right := rx geo + rwidth geo - (x + width st.1) in
              left <= right <= left + 1)
          /\ (let top := y - ry geo in
              let bottom := ry geo + rheight geo - (y + height st.1) in
              top <= bottom <= top + 1)).
Proof.
  destruct st as [w os]. unfold center_on_screen. cbn [fst snd].
  split; [by destruct (primary_screen P)|].
  split; [by destruct (primary_screen P)|].
  split; [by intros ->|].
  intros geo ->. eexists _, _. split; [reflexivity|]. cbv zeta.
  pose proof (Z.div_mod (rwidth geo - width w) 2 ltac:(lia)) as Hx.
  pose proof (Z.mod_pos_bound (rwidth geo - width w) 2 ltac:(lia)) as Hxb.
  pose proof (Z.div_mod (rheight geo - height w) 2 ltac:(lia)) as Hy.
  pose proof (Z.mod_pos_bound (rheight geo - height w) 2 ltac:(lia)) as Hyb.
  split; lia.
Qed.

Lemma center_on_screen_centred_witness :
  exists x y,
    calls (center_on_screen windows_ok (default_window_object, fresh_world)).2
    = [WindowMove x y]
    /\ x - 0 <= 0 + 1920 - (x + 900) <= x - 0 + 1.
Proof.
  destruct (center_on_screen_centred windows_ok (default_window_object, fresh_world))
    as (_ & _ & _ & H).
  destruct (H full_hd eq_refl) as (x & y & Hc & Hx & _).
  exists x, y. split; [exact Hc|exact Hx].
Defined.

(** X4: [_hold_cursor_center] does nothing off Windows; on Windows it
    makes exactly one [SetCursorPos] call, at the point computed from the
    geometry at hand, and whether or not the call raises it changes
    neither the window nor the system. With a primary screen of positive
    size the point lies inside the screen's available area. *)
Theorem hold_cursor_center_target (P : Platform) (st : state) :
  (_hold_cursor_center P st).1 = st.1
  /\ system_state (_hold_cursor_center P st).2 = system_state st.2
  /\ (IS_WINDOWS P = false -> _hold_cursor_center P st = st)
  /\ (IS_WINDOWS P = true ->
      calls (_hold_cursor_center P st).2
      = (calls st.2 ++ [Api (SetCursorPos (_center_point P).1 (_center_point P).2)])%list)
  /\ (forall geo, primary_screen P = Some geo -> 0 < rwidth geo -> 0 < rheight geo ->
        rx geo <= (_center_point P).1 < rx geo + rwidth geo
        /\ ry geo <= (_center_point P).2 < ry geo + rheight geo).
Proof.
  destruct (hold_cursor_center_facts P st) as (H1 & H2 & _).
  split; [exact H1|]. split; [exact H2|]. split; [|split].
  - intros HW. unfold _hold_cursor_center. by rewrite HW.
  - intros HW. destruct st as [w os]. unfold _hold_cursor_center. rewrite HW.
    cbn [negb fst snd]. destruct (_center_point P) as [cx cy].
    unfold winapi_try, winapi_call. cbn [fst snd].
    by destruct (raises P (SetCursorPos cx cy)).
  - intros geo Hg Hw Hh. unfold _center_point. rewrite Hg. cbn [fst snd].
    pose proof (Z.div_pos (rwidth geo) 2 ltac:(lia) ltac:(lia)).
    pose proof (Z.div_lt (rwidth geo) 2 ltac:(lia) ltac:(lia)).
    pose proof (Z.div_pos (rheight geo) 2 ltac:(lia) ltac:(lia)).
    pose proof (Z.div_lt (rheight geo) 2 ltac:(lia) ltac:(lia)).
    lia.
Qed.

Lemma hold_cursor_center_target_witness :
  calls (_hold_cursor_center windows_ok (default_window_object, fresh_world)).2
  = [Api (SetCursorPos 960 540)]
  /\ 0 <= 960 < 0 + 1920.
Proof.
  destruct (hold_cursor_center_target windows_ok (default_window_object, fresh_world))
    as (_ & _ & _ & Hc & Hin).
  split; [exact (Hc eq_refl)|].
  apply (Hin full_hd eq_refl); reflexivity.
Defined.

(** ** The event loop *)

Lemma run_cons (P : Platform) (ev : event) (evs : list event) (st : state) :
  run P (ev :: evs) st = run P evs (handle P ev st).
Proof. reflexivity. Qed.

Lemma api_calls_record (c : call) (os : World) :
  api_calls (record c os) = (api_calls os ++ if is_api c then [c] else [])%list.
Proof.
  unfold api_calls, record. simpl. rewrite List.filter_app. simpl.
  by destruct (is_api c).
Qed.

Lemma system_state_eq (os os' : World) :
  system_state os = system_state os' ->
  cursor_count os = cursor_count os' /\ hooks os = hooks os'
  /\ timers os = timers os' /\ timer_count os = timer_count os'
  /\ visible os = visible os' /\ exit_code os = exit_code os'.
Proof. unfold system_state. intros [= -> -> -> -> -> ->]. done. Qed.

Lemma close_request_eq (P : Platform) (st : state) :
  close_request P st = force_topmost P (st.1, record EventIgnore st.2).
Proof. reflexivity. Qed.

Lemma release_enforcement_system (P : Platform) (st : state) :
  exit_code (release_enforcement P st).2 = exit_code st.2
  /\ visible (release_enforcement P st).2 = visible st.2
  /\ timer_count (release_enforcement P st).2 = timer_count st.2.
Proof.
  destruct_state st.
  unfold release_enforcement, uninstall_keyboard_blocker, winapi_try, winapi_call.
  simpl. destruct ct, mt, ch, kh as [h|]; simpl; case_flags P; done.
Qed.

Lemma update_info_facts (st : state) :
  _deadline (update_info st).1 = _deadline st.1
  /\ close_btn (update_info st).1 = close_btn st.1
  /\ remaining (update_info st).1 = remaining st.1
  /\ resources (update_info st) = resources st
  /\ system_state (update_info st).2 = system_state st.2
  /\ api_calls (update_info st).2 = api_calls st.2
  /\ releases (update_info st).2 = releases st.2.
Proof.
  destruct st as [[] os]. unfold update_info, info_setText. cbn [fst snd].
  rewrite api_calls_record, releases_record. simpl. rewrite app_nil_r.
  repeat split; lia.
Qed.

Lemma tick_system (P : Platform) (now : Q) (st : state) :
  exit_code (_tick P now st).2 = exit_code st.2
  /\ visible (_tick P now st).2 = visible st.2.
Proof.
  destruct (tick_cases P now st) as [[_ ->]|(d & _ & Hc)]; [done|].
  destruct Hc as [(_ & ->)|[(_ & _ & ->)|(_ & _ & ->)]]; [|done|].
  - destruct (release_enforcement_system P (set_remaining 0 st.1, st.2)) as (-> & -> & _).
    done.
  - destruct (update_info_facts (set_remaining (Qceiling (d - now)) st.1, st.2))
      as (_ & _ & _ & _ & Hs & _ & _).
    apply system_state_eq in Hs as (_ & _ & _ & _ & Hv & He). done.
Qed.

Lemma timeout_system (P : Platform) (id : nat) (now : Q) (st : state) :
  exit_code (timeout P id now st).2 = exit_code st.2
  /\ visible (timeout P id now st).2 = visible st.2.
Proof.
  unfold timeout. destruct (timers st.2 !! id) as [[]|]; [| |done].
  - destruct (hold_cursor_center_facts P st) as (_ & Hs & _).
    apply system_state_eq in Hs as (_ & _ & _ & _ & Hv & He). done.
  - apply tick_system.
Qed.

Lemma close_request_system (P : Platform) (st : state) :
  (close_request P st).1 = st.1
  /\ system_state (close_request P st).2 = system_state st.2
  /\ releases (close_request P st).2 = releases st.2.
Proof.
  rewrite close_request_eq.
  destruct (force_topmost_facts P (st.1, record EventIgnore st.2)) as (H1 & H2 & H3).
  cbn [fst snd] in *. rewrite H1, H2, H3, releases_record. simpl.
  split; [done|]. split; [done|lia].
Qed.

Lemma show_system (P : Platform) (w : ReadWindow) (os : World) (t1 t2 : Q) :
  visible (show P t1 t2 (w, os)).2 = true
  /\ exit_code (show P t1 t2 (w, os)).2 = exit_code os
  /\ releases (show P t1 t2 (w, os)).2 = releases os.
Proof.
  unfold show, showEvent. cbn [fst snd].
  set (pre := force_topmost P (center_on_screen P (w, set_visible true os))).
  destruct (start_enforcement_world P t1 t2 pre) as (_ & _ & Hr & He & Hv & _).
  destruct (install_keyboard_blocker_world P pre) as (Hr' & He' & Hv' & _).
  assert (Hpre : visible pre.2 = true /\ exit_code pre.2 = exit_code os
                 /\ releases pre.2 = releases os).
  { unfold pre.
    destruct (force_topmost_facts P (center_on_screen P (w, set_visible true os)))
      as (_ & H2 & H3).
    destruct (center_on_screen_facts P (w, set_visible true os)) as (_ & H5 & H6).
    apply system_state_eq in H2 as (_ & _ & _ & _ & Hv2 & He2).
    apply system_state_eq in H5 as (_ & _ & _ & _ & Hv5 & He5).
    cbn [fst snd] in *. rewrite Hv2, Hv5, He2, He5, H3, H6. done. }
  destruct Hpre as (Hpv & Hpe & Hpr).
  rewrite Hr, He, Hv. destruct (IS_WINDOWS P).
  - by rewrite Hr', He', Hv'.
  - done.
Qed.

Lemma safe_close_exit (P : Platform) (st : state) :
  exit_code (safe_close P st).2 = Some 0
  /\ (safe_close P st).1 = (release_enforcement P st).1.
Proof. unfold safe_close. by destruct (release_enforcement P st). Qed.

(** X5: nothing but a click on the enabled button ends the process, and
    it ends it with exit code 0 and with enforcement let go: whatever
    events arrive and in whatever order, either the process is still
    running, or its exit code is 0, the window is RELEASED, it references
    no timer and (on Windows) no hook and no hidden cursor. *)
Theorem exit_only_released (P : Platform) (evs : list event) (st : state) :
  exit_code st.2 = None ->
  let st' := run P evs st in
  exit_code st'.2 = None
  \/ (exit_code st'.2 = Some 0
      /\ RELEASED st' /\ close_btn st'.1 = true
      /\ _countdown_timer st'.1 = None /\ _mouse_lock_timer st'.1 = None
      /\ (IS_WINDOWS P = true -> _kb_hook st'.1 = None /\ _cursor_hidden st'.1 = false)).
Proof.
  cbv zeta. revert st. induction evs as [|ev evs IH]; intros st Hrun; [by left|].
  rewrite run_cons.
  assert (Hstep : exit_code (handle P ev st).2 = None
                  \/ exists s, close_btn s.1 = true /\ handle P ev st = safe_close P s).
  { unfold handle. rewrite Hrun. destruct ev as [t1 t2|id now| |].
    - left. destruct st as [w os]. by destruct (show_system P w os t1 t2) as (_ & -> & _).
    - left. by destruct (timeout_system P id now st) as [-> _].
    - left. destruct (close_request_system P st) as (_ & Hs & _).
      apply system_state_eq in Hs as (_ & _ & _ & _ & _ & He). congruence.
    - unfold click_close_btn. destruct (close_btn st.1) eqn:Hb; [right; by exists st|by left]. }
  destruct Hstep as [Hnone|(s & Hb & Hs)]; [by apply IH|].
  right.
  assert (Hstop : forall l, run P l (handle P ev st) = handle P ev st).
  { assert (Hh : forall e, handle P e (handle P ev st) = handle P ev st).
    { intros e. rewrite Hs. unfold handle.
      by destruct (safe_close_exit P s) as [-> _]. }
    intros l. induction l as [|e l IHl]; [done|].
    by rewrite run_cons, Hh. }
  rewrite Hstop, Hs. destruct (safe_close_exit P s) as [He Hw].
  destruct (release_enforcement_end_state P s) as (Hc & Hm & Hd & Hcb & _ & HW).
  unfold RELEASED. rewrite He, Hw.
  split; [done|]. split; [done|]. split; [done|]. split; [done|]. split; [done|].
  intros HWin. by destruct (HW HWin) as (? & ? & _).
Qed.

Lemma exit_only_released_witness :
  exit_code (run windows_ok [EvClick; EvCloseRequest; EvTimeout 1 6; EvClick]
               locked_example).2 = Some 0.
Proof.
  destruct (exit_only_released windows_ok
              [EvClick; EvCloseRequest; EvTimeout 1 6; EvClick] locked_example eq_refl)
    as [Hn|(He & _)].
  - vm_compute in Hn. discriminate.
  - exact He.
Defined.

Lemma Qceiling_nonpos (d now : Q) : (d <= now)%Q -> Qceiling (d - now) <= 0.
Proof.
  intros Hq. change 0 with (Qceiling 0). apply Qceiling_resp_le.
  apply (Qplus_le_l _ _ now). by ring_simplify.
Qed.

Lemma tick_release_window (P : Platform) (s : state) :
  released_window (release_enforcement P (set_remaining 0 s.1, s.2))
  /\ remaining (release_enforcement P (set_remaining 0 s.1, s.2)).1 = 0.
Proof.
  destruct (release_enforcement_end_state P (set_remaining 0 s.1, s.2))
    as (Hc & Hm & Hdl & Hb & Hi & _).
  rewrite release_enforcement_remaining. unfold released_window, RELEASED.
  by destruct s as [[] os].
Qed.

Lemma run_ticks_outcome (P : Platform) (d : Q) (ts : list Q) :
  forall st, _deadline st.1 = Some d ->
    _deadline (run_ticks P ts st).1 = Some d
    \/ (released_window (run_ticks P ts st) /\ remaining (run_ticks P ts st).1 = 0).
Proof.
  induction ts as [|now ts IH]; intros st Hd; [by left|].
  rewrite run_ticks_cons.
  destruct (tick_cases P now st) as [[Hn _]|(d' & Hd' & Hc)]; [congruence|].
  assert (d' = d) as -> by congruence.
  destruct Hc as [(_ & Ht)|[(_ & _ & Ht)|(_ & _ & Ht)]]; rewrite Ht.
  - right. rewrite run_ticks_released by apply release_enforcement_deadline.
    apply tick_release_window.
  - by apply IH.
  - apply IH. by destruct st as [[] os].
Qed.

(** X7: at or after the deadline one tick is enough. If the countdown
    ticks of a lock cycle include one whose clock reading has reached
    the deadline, then whatever ticks came before and come after, the
    window ends RELEASED with the button enabled, the label saying so,
    [remaining] 0 and no timer referenced. *)
Theorem released_once_deadline_reached (P : Platform) (w : ReadWindow) (os : World)
    (t1 t2 now : Q) (ts1 ts2 : list Q) :
  (t1 + inject_Z (lock_seconds w) <= now)%Q ->
  let st := run_ticks P (ts1 ++ now :: ts2) (show P t1 t2 (w, os)) in
  released_window st /\ remaining st.1 = 0.
Proof.
  cbv zeta. intros Hnow.
  destruct (show_window P w os t1 t2) as (Hd & _).
  set (d := (t1 + inject_Z (lock_seconds w))%Q) in *.
  unfold run_ticks. rewrite foldl_app. fold (run_ticks P ts1 (show P t1 t2 (w, os))).
  set (s1 := run_ticks P ts1 (show P t1 t2 (w, os))).
  change (foldl (fun st now0 => _tick P now0 st) s1 (now :: ts2))
    with (run_ticks P ts2 (_tick P now s1)).
  assert (Hs1 : released_window (_tick P now s1) /\ remaining (_tick P now s1).1 = 0).
  { destruct (run_ticks_outcome P d ts1 _ Hd) as [Hl|Hr]; fold s1 in Hl || fold s1 in Hr.
    - destruct (tick_cases P now s1) as [[Hn _]|(d' & Hd' & Hc)]; [congruence|].
      assert (d' = d) as -> by congruence.
      assert (Hle : Qceiling (d - now) <= 0).
      { by apply Qceiling_nonpos. }
      destruct Hc as [(_ & ->)|[(Hgt & _)|(Hgt & _)]]; [|lia|lia].
      apply tick_release_window.
    - destruct Hr as [(Hrel & Hrest) Hrem]. unfold _tick.
      unfold RELEASED in Hrel. rewrite Hrel. done. }
  rewrite run_ticks_released; [done|]. by destruct Hs1 as [(? & _) _].
Qed.

Lemma released_once_deadline_reached_witness :
  close_btn (run_ticks windows_ok ([1%Q] ++ 5%Q :: [7%Q]) locked_example).1 = true.
Proof.
  apply (released_once_deadline_reached windows_ok default_window_object fresh_world
           0 0 5 [1%Q] [7%Q]).
  vm_compute. discriminate.
Defined.

(** ** The hook over the whole life of the window *)

Lemma hooks_tracked_same (P : Platform) (st st' : state) :
  _kb_hook st'.1 = _kb_hook st.1 -> hooks st'.2 = hooks st.2 ->
  hooks_tracked P st -> hooks_tracked P st'.
Proof. unfold hooks_tracked. by intros -> ->. Qed.

Lemma start_enforcement_tracked (P : Platform) (t1 t2 : Q) (st : state) :
  hooks_tracked P st -> hooks_tracked P (start_enforcement P t1 t2 st).
Proof.
  intros Ht. destruct (start_enforcement_world P t1 t2 st) as (Hh & Hk & _).
  apply (hooks_tracked_same P _ _ Hk Hh).
  destruct (IS_WINDOWS P); [by apply install_keyboard_blocker_tracked|done].
Qed.

Lemma show_tracked (P : Platform) (t1 t2 : Q) (st : state) :
  hooks_tracked P st -> hooks_tracked P (show P t1 t2 st).
Proof.
  intros Ht. destruct st as [w os]. unfold show, showEvent. cbn [fst snd].
  apply start_enforcement_tracked.
  destruct (show_pre P w os) as (H1 & H2 & _).
  apply (hooks_tracked_same P (w, os)); [by rewrite H1|by rewrite H2|done].
Qed.

Lemma release_enforcement_tracked (P : Platform) (st : state) :
  (forall h, raises P (UnhookWindowsHookEx h) = false) ->
  hooks_tracked P st -> hooks_tracked P (release_enforcement P st).
Proof.
  intros Hun Ht. destruct (release_enforcement_hooks P st Hun Ht) as [Hh Hk].
  left. by rewrite Hh, Hk.
Qed.

Lemma tick_tracked (P : Platform) (now : Q) (st : state) :
  (forall h, raises P (UnhookWindowsHookEx h) = false) ->
  hooks_tracked P st -> hooks_tracked P (_tick P now st).
Proof.
  intros Hun Ht.
  destruct (tick_cases P now st) as [[_ ->]|(d & _ & Hc)]; [done|].
  destruct Hc as [(_ & ->)|[(_ & _ & ->)|(_ & _ & ->)]]; [|done|].
  - apply release_enforcement_tracked; [done|].
    apply (hooks_tracked_same P st); [by destruct st as [[] ?]|done|done].
  - apply (hooks_tracked_same P st); [by destruct st as [[] ?]|by destruct st as [[] ?]|done].
Qed.

Lemma handle_tracked (P : Platform) (ev : event) (st : state) :
  (forall h, raises P (UnhookWindowsHookEx h) = false) ->
  hooks_tracked P st -> hooks_tracked P (handle P ev st).
Proof.
  intros Hun Ht. unfold handle. destruct (exit_code st.2); [done|].
  destruct ev as [t1 t2|id now| |].
  - by apply show_tracked.
  - unfold timeout. destruct (timers st.2 !! id) as [[]|]; [| |done].
    + destruct (hold_cursor_center_facts P st) as (H1 & H2 & _).
      apply system_state_eq in H2 as (_ & H2 & _).
      apply (hooks_tracked_same P st); [by rewrite H1|done|done].
    + by apply tick_tracked.
  - destruct (close_request_system P st) as (H1 & H2 & _).
    apply system_state_eq in H2 as (_ & H2 & _).
    apply (hooks_tracked_same P st); [by rewrite H1|done|done].
  - unfold click_close_btn. destruct (close_btn st.1); [|done].
    destruct (safe_close_facts P st) as (H1 & _ & _ & H2 & _).
    apply (hooks_tracked_same P (release_enforcement P st)); [by rewrite H1|done|].
    by apply release_enforcement_tracked.
Qed.

(** X8: the process never has more than one keyboard hook installed, and
    an installed hook is always the one [_kb_hook] refers to. This holds
    after any events in any order, repeated shows included, as long as
    unhooking does not fail. *)
Theorem at_most_one_hook (P : Platform) (evs : list event) (st : state) :
  (forall h, raises P (UnhookWindowsHookEx h) = false) ->
  hooks_tracked P st ->
  let st' := run P evs st in
  hooks_tracked P st'
  /\ (size (hooks st'.2) <= 1)%nat
  /\ (forall h, h ∈ hooks st'.2 -> _kb_hook st'.1 = Some h /\ h <> 0).
Proof.
  cbv zeta. intros Hun Ht.
  assert (Hrun : hooks_tracked P (run P evs st)).
  { revert st Ht. induction evs as [|ev evs IH]; intros st Ht; [done|].
    rewrite run_cons. apply IH. by apply handle_tracked. }
  split; [exact Hrun|].
  destruct Hrun as [[Hh _]|(_ & h & Hh0 & Hk & Hh)]; rewrite Hh.
  - split; [rewrite size_empty; lia|]. intros h Hin. by apply not_elem_of_empty in Hin.
  - split; [rewrite size_singleton; lia|].
    intros h' Hin. apply elem_of_singleton in Hin as ->. done.
Qed.

Lemma at_most_one_hook_witness :
  (size (hooks (run windows_ok [EvShow 0 0; EvShow 1 1; EvTimeout 3 7; EvShow 8 8]
                  (default_window_object, fresh_world)).2) <= 1)%nat.
Proof.
  apply (at_most_one_hook windows_ok [EvShow 0 0; EvShow 1 1; EvTimeout 3 7; EvShow 8 8]
           (default_window_object, fresh_world)).
  - reflexivity.
  - left. split; reflexivity.
Defined.

(** ** A platform other than Windows *)

Ltac footprint :=
  unfold winapi_footprint, api_calls; simpl;
  rewrite <- ?app_assoc, ?List.filter_app; simpl; rewrite ?app_nil_r; reflexivity.

Lemma force_topmost_inert (P : Platform) (st : state) :
  IS_WINDOWS P = false -> winapi_footprint (force_topmost P st) = winapi_footprint st.
Proof. intros HW. destruct st as [w os]. unfold force_topmost. rewrite HW. footprint. Qed.

Lemma center_on_screen_inert (P : Platform) (st : state) :
  winapi_footprint (center_on_screen P st) = winapi_footprint st.
Proof.
  destruct st as [w os]. unfold center_on_screen. destruct (primary_screen P); footprint.
Qed.

Lemma start_enforcement_inert (P : Platform) (t1 t2 : Q) (st : state) :
  IS_WINDOWS P = false ->
  winapi_footprint (start_enforcement P t1 t2 st) = winapi_footprint st.
Proof.
  intros HW. destruct_state st.
  unfold start_enforcement, _hold_cursor_center, update_info, info_setText, timer_new_start.
  rewrite HW. footprint.
Qed.

Lemma release_enforcement_inert (P : Platform) (st : state) :
  IS_WINDOWS P = false ->
  winapi_footprint (release_enforcement P st) = winapi_footprint st.
Proof.
  intros HW. destruct_state st. unfold release_enforcement. rewrite HW. simpl.
  destruct ct, mt; footprint.
Qed.

Lemma handle_inert (P : Platform) (ev : event) (st : state) :
  IS_WINDOWS P = false -> winapi_footprint (handle P ev st) = winapi_footprint st.
Proof.
  intros HW. unfold handle. destruct (exit_code st.2); [done|].
  destruct ev as [t1 t2|id now| |].
  - unfold show, showEvent.
    rewrite start_enforcement_inert, force_topmost_inert, center_on_screen_inert by done.
    destruct st as [w os]. footprint.
  - unfold timeout. destruct (timers st.2 !! id) as [[]|]; [| |done].
    + unfold _hold_cursor_center. by rewrite HW.
    + destruct (tick_cases P now st) as [[_ ->]|(d & _ & Hc)]; [done|].
      destruct Hc as [(_ & ->)|[(_ & _ & ->)|(_ & _ & ->)]]; [|done|].
      * rewrite release_enforcement_inert by done. destruct st as [[] os]. footprint.
      * destruct st as [[] os]. unfold update_info, info_setText. footprint.
  - rewrite close_request_eq, force_topmost_inert by done. destruct st as [w os]. footprint.
  - unfold click_close_btn. destruct (close_btn st.1); [|done].
    unfold safe_close.
    pose proof (release_enforcement_inert P st HW) as Hr.
    destruct (release_enforcement P st) as [w' os']. rewrite <- Hr. footprint.
Qed.

(** X9: off Windows the window is inert towards the platform. Whatever
    events arrive, it makes no WinAPI call, installs no hook, does not
    touch the cursor counter, and never holds a hook handle or believes
    the cursor hidden (if it did not before). *)
Theorem inert_off_windows (P : Platform) (evs : list event) (st : state) :
  IS_WINDOWS P = false ->
  winapi_footprint (run P evs st) = winapi_footprint st
  /\ api_calls (run P evs st).2 = api_calls st.2
  /\ hooks (run P evs st).2 = hooks st.2
  /\ cursor_count (run P evs st).2 = cursor_count st.2.
Proof.
  intros HW.
  assert (Hf : winapi_footprint (run P evs st) = winapi_footprint st).
  { revert st. induction evs as [|ev evs IH]; intros st; [done|].
    rewrite run_cons, IH. by apply handle_inert. }
  split; [exact Hf|]. unfold winapi_footprint in Hf.
  injection Hf as H1 H2 H3 H4 H5. done.
Qed.

Lemma inert_off_windows_witness :
  api_calls
    (run {| IS_WINDOWS := false; raises := fun _ => false; hook_handle := 77;
            primary_screen := Some full_hd; geometry := full_hd |}
       [EvShow 0 0; EvTimeout 0 1; EvTimeout 1 6; EvClick]
       (default_window_object, fresh_world)).2 = [].
Proof.
  apply (inert_off_windows
           {| IS_WINDOWS := false; raises := fun _ => false; hook_handle := 77;
              primary_screen := Some full_hd; geometry := full_hd |}
           [EvShow 0 0; EvTimeout 0 1; EvTimeout 1 6; EvClick]
           (default_window_object, fresh_world)).
  reflexivity.
Defined.

(** ** What enforcement takes and gives back *)

Lemma start_enforcement_resources (P : Platform) (t1 t2 : Q) (st : state) :
  let st0 := if IS_WINDOWS P then install_keyboard_blocker P st else st in
  let tc := timer_count st0.2 in
  let st' := start_enforcement P t1 t2 st in
  _mouse_lock_timer st'.1 = Some tc
  /\ _countdown_timer st'.1 = Some (S tc)
  /\ timers st'.2 = <[S tc := SlotTick]> (<[tc := SlotHoldCursorCenter]> (timers st0.2))
  /\ timer_count st'.2 = S (S tc)
  /\ _cursor_hidden st'.1
     = (if IS_WINDOWS P then negb (raises P (ShowCursor false)) else _cursor_hidden st0.1)
  /\ cursor_count st'.2
     = (if IS_WINDOWS P && negb (raises P (ShowCursor false))
        then cursor_count st0.2 - 1 else cursor_count st0.2).
Proof.
  cbv zeta. unfold start_enforcement.
  set (st0 := if IS_WINDOWS P then install_keyboard_blocker P st else st).
  destruct st0 as [[ls rem dl mt ct kh kp ch ti wi he ht fp inf cb]
                   [cc hk tm tc vis ec cl]].
  unfold _hold_cursor_center. destruct (_center_point P) as [cx cy].
  unfold winapi_try, winapi_call.
  destruct (IS_WINDOWS P);
    [destruct (raises P (ShowCursor false)); destruct (raises P (SetCursorPos cx cy))|];
    unfold timer_new_start, update_info, info_setText; cbn -[insert lookup]; done.
Qed.


Lemma release_enforcement_resources (P : Platform) (st : state) :
  timers (release_enforcement P st).2
  = match _mouse_lock_timer st.1 with Some i => delete i | None => fun m => m end
      (match _countdown_timer st.1 with Some i => delete i | None => fun m => m end
         (timers st.2))
  /\ cursor_count (release_enforcement P st).2
     = cursor_count st.2
       + (if IS_WINDOWS P && _cursor_hidden st.1 && negb (raises P (ShowCursor true))
          then 1 else 0).
Proof.
  destruct_state st.
  unfold release_enforcement, uninstall_keyboard_blocker, winapi_try, winapi_call.
  simpl. destruct ct, mt, ch, kh as [h|]; simpl; case_flags P; split; (done || lia).
Qed.






(** ** The configuration as the window gets it *)

(** X12: whatever the configuration file holds or lacks, [load_config]
    returns a dict that has all five fields, and whose [window] is a dict
    with a [width] and a [height]: the [.get] calls of the constructor
    always find an object to look into. *)
Theorem load_config_well_formed (B : Builtins) (fs : filesystem) :
  exists d wd,
    load_config B fs = PDict d
    /\ Forall (fun k => is_Some (d !! k))
         ["title"; "lock_seconds"; "window"; "font_point_size"; "requirements_markdown"]
    /\ d !! "window" = Some (PDict wd)
    /\ is_Some (wd !! "width") /\ is_Some (wd !! "height").
Proof.
  assert (Hm : forall d0, exists wd,
            Forall (fun k => is_Some (spec_merge d0 !! k))
              ["title"; "lock_seconds"; "window"; "font_point_size";
               "requirements_markdown"]
            /\ spec_merge d0 !! "window" = Some (PDict wd)
            /\ is_Some (wd !! "width") /\ is_Some (wd !! "height")).
  { intros d0.
    assert (Hk : forall k, k <> "window" -> is_Some (default_map !! k) ->
                 is_Some (spec_merge d0 !! k)).
    { intros k Hne Hs. rewrite spec_merge_lookup by done. by destruct (d0 !! k). }
    assert (Hw : exists wd, spec_merge d0 !! "window" = Some (PDict wd)
                 /\ is_Some (wd !! "width") /\ is_Some (wd !! "height")).
    { rewrite spec_merge_window. destruct (d0 !! "window") as [[| | | | | |wd]|];
        try (eexists; split; [reflexivity|]; split; by eexists).
      exists (wd ∪ default_window_map). split; [done|].
      rewrite !lookup_union. split.
      - destruct (wd !! "width"); by eexists.
      - destruct (wd !! "height"); by eexists. }
    destruct Hw as (wd & Hw & Hwd).
    exists wd. split; [|done].
    repeat constructor; try (apply Hk; [done|by eexists]).
    rewrite Hw. by eexists. }
  rewrite load_config_eq.
  destruct (fs "config.json") as [|e|text].
  3: destruct (json_load B text) as [[| | | | | |d0]|].
  all: try (destruct (Hm ∅) as (wd & _); eexists _, _; split; [reflexivity|];
            split; [repeat constructor; by eexists|];
            split; [reflexivity|]; split; by eexists).
  destruct (Hm d0) as (wd & H1 & H2 & H3). by exists (spec_merge d0), wd.
Qed.

(** X13: whenever the constructor returns, the lock time is at least 1
    and [remaining] starts equal to it, whatever type the configured
    [lock_seconds] has (integer, boolean, float, numeric string); the
    window starts with the button disabled and holds no deadline, timer
    or hook. A configured [null] (or no field) gives the constructor's
    own argument, coerced the same way. *)
Theorem init_lock_at_least_one (B : Builtins) (CFG : pyval) (RULES_HTML : string)
    (arg : Z) (w : ReadWindow) :
  init B CFG RULES_HTML arg = Ok w ->
  1 <= lock_seconds w
  /\ remaining w = lock_seconds w
  /\ close_btn w = false /\ _deadline w = None
  /\ _countdown_timer w = None /\ _mouse_lock_timer w = None /\ _kb_hook w = None
  /\ (cfg_get CFG "lock_seconds" PNone = PNone -> lock_seconds w = Z.max 1 arg)
  /\ (forall b, cfg_get CFG "lock_seconds" PNone = PBool b -> lock_seconds w = 1)
  /\ (forall q, cfg_get CFG "lock_seconds" PNone = PFloat (Finite q) ->
        lock_seconds w = Z.max 1 (Qtruncate q)).
Proof.
  intros Hi. apply init_ok in Hi as (Hl & Hr & Hd & Hk & _ & Hc & Hm & _ & Hb & _).
  unfold init_lock_seconds in Hl.
  assert (H1 : 1 <= lock_seconds w).
  { destruct (match cfg_get CFG "lock_seconds" PNone with PNone => _ | _ => _ end)
      as [n|]; rsimpl; [|done]. injection Hl as <-. lia. }
  split; [done|]. split; [done|]. split; [done|]. split; [done|]. split; [done|].
  split; [done|]. split; [done|]. split; [|split].
  - intros Hn. rewrite Hn in Hl. rsimpl. by injection Hl as <-.
  - intros b Hn. rewrite Hn in Hl. rsimpl. injection Hl as <-. by destruct b.
  - intros q Hn. rewrite Hn in Hl. rsimpl. by injection Hl as <-.
Qed.

Lemma init_lock_at_least_one_witness :
  lock_seconds default_window_object = Z.max 1 5.
Proof.
  apply (init_lock_at_least_one example_builtins (PDict ∅) rules_not_found 5
           default_window_object).
  - reflexivity.
  - reflexivity.
Defined.

(** ** Showing the window again *)



(** ** The countdown does not depend on the platform *)

Lemma release_enforcement_countdown (P : Platform) (st : state) :
  countdown_part (release_enforcement P st)
  = (lock_seconds st.1, remaining st.1, None, None, None, released_text, true,
     match _mouse_lock_timer st.1 with Some i => delete i | None => fun m => m end
       (match _countdown_timer st.1 with Some i => delete i | None => fun m => m end
          (timers st.2)),
     timer_count st.2, visible st.2, exit_code st.2).
Proof.
  unfold countdown_part.
  destruct (release_enforcement_resources P st) as [-> _].
  destruct (release_enforcement_system P st) as (-> & -> & ->).
  rewrite release_enforcement_window.
  destruct st as [[] os]. by destruct (IS_WINDOWS P).
Qed.

Lemma start_enforcement_countdown (P : Platform) (t1 t2 : Q) (st : state) :
  let d := (t1 + inject_Z (lock_seconds st.1))%Q in
  let r := Z.max 0 (Qceiling (d - t2)) in
  let tc := timer_count st.2 in
  countdown_part (start_enforcement P t1 t2 st)
  = (lock_seconds st.1, r, Some d, Some tc, Some (S tc), countdown_text r,
     close_btn st.1,
     <[S tc := SlotTick]> (<[tc := SlotHoldCursorCenter]> (timers st.2)),
     S (S tc), visible st.2, exit_code st.2).
Proof.
  cbv zeta. unfold countdown_part.
  destruct (start_enforcement_window P t1 t2 st) as (Hd & Hr & Hi & Hb & Hl).
  destruct (start_enforcement_resources P t1 t2 st) as (Hm & Hc & Ht & Hn & _).
  destruct (start_enforcement_world P t1 t2 st) as (_ & _ & _ & He & Hv & _).
  destruct (install_keyboard_blocker_world P st) as (_ & He' & Hv' & Ht' & Hn' & _).
  cbv zeta in *. rewrite Hd, Hi, Hr, Hb, Hl, Hm, Hc, Ht, Hn, He, Hv.
  destruct (IS_WINDOWS P); [rewrite He', Hv', Ht', Hn'|]; reflexivity.
Qed.

Lemma show_countdown (P : Platform) (t1 t2 : Q) (st : state) :
  let d := (t1 + inject_Z (lock_seconds st.1))%Q in
  let r := Z.max 0 (Qceiling (d - t2)) in
  let tc := timer_count st.2 in
  countdown_part (show P t1 t2 st)
  = (lock_seconds st.1, r, Some d, Some tc, Some (S tc), countdown_text r,
     close_btn st.1,
     <[S tc := SlotTick]> (<[tc := SlotHoldCursorCenter]> (timers st.2)),
     S (S tc), true, exit_code st.2).
Proof.
  cbv zeta. unfold show, showEvent. rewrite start_enforcement_countdown.
  destruct (force_topmost_facts P (center_on_screen P (st.1, set_visible true st.2)))
    as (H1 & H2 & _).
  destruct (center_on_screen_facts P (st.1, set_visible true st.2)) as (H4 & H5 & _).
  apply system_state_eq in H2 as (_ & _ & Ht2 & Hn2 & Hv2 & He2).
  apply system_state_eq in H5 as (_ & _ & Ht5 & Hn5 & Hv5 & He5).
  cbn [fst snd] in *. rewrite H1, H4, Ht2, Ht5, Hn2, Hn5, Hv2, Hv5, He2, He5.
  reflexivity.
Qed.

Lemma tick_countdown (P : Platform) (now : Q) (st : state) :
  countdown_part (_tick P now st)
  = match _deadline st.1 with
    | None => countdown_part st
    | Some d =>
        if Qceiling (d - now) <=? 0
        then (lock_seconds st.1, 0, None, None, None, released_text, true,
              match _mouse_lock_timer st.1 with Some i => delete i | None => fun m => m end
                (match _countdown_timer st.1 with
                 | Some i => delete i
                 | None => fun m => m
                 end (timers st.2)),
              timer_count st.2, visible st.2, exit_code st.2)
        else if negb (Qceiling (d - now) =? remaining st.1)
             then (lock_seconds st.1, Qceiling (d - now), Some d, _mouse_lock_timer st.1,
                   _countdown_timer st.1, countdown_text (Qceiling (d - now)),
                   close_btn st.1, timers st.2, timer_count st.2, visible st.2,
                   exit_code st.2)
             else countdown_part st
    end.
Proof.
  unfold _tick. destruct (_deadline st.1) as [d|] eqn:Hd; [|done].
  destruct (Qceiling (d - now) <=? 0).
  - rewrite release_enforcement_countdown. by destruct st as [[] os].
  - destruct (negb (Qceiling (d - now) =? remaining st.1)); [|done].
    destruct st as [[] os]. simpl in *. by rewrite Hd.
Qed.

Lemma handle_countdown (P P' : Platform) (ev : event) (st st' : state) :
  countdown_part st = countdown_part st' ->
  countdown_part (handle P ev st) = countdown_part (handle P' ev st').
Proof.
  intros Heq. pose proof Heq as Hparts. unfold countdown_part in Hparts.
  injection Hparts as Hl Hr Hd Hm Hc Hi Hb Ht Hn Hv He.
  unfold handle. rewrite <- He. destruct (exit_code st.2) eqn:Hex; [done|].
  destruct ev as [t1 t2|id now| |].
  - rewrite !show_countdown. cbv zeta. congruence.
  - unfold timeout. rewrite <- Ht. destruct (timers st.2 !! id) as [[]|]; [| |done].
    + destruct (hold_cursor_center_facts P st) as (H1 & H2 & _).
      destruct (hold_cursor_center_facts P' st') as (H1' & H2' & _).
      apply system_state_eq in H2 as (_ & _ & ? & ? & ? & ?).
      apply system_state_eq in H2' as (_ & _ & ? & ? & ? & ?).
      unfold countdown_part. congruence.
    + rewrite !tick_countdown.
      rewrite <- Hd, <- Hr, <- Hl, <- Hm, <- Hc, <- Hb, <- Ht, <- Hn, <- Hv, <- He, <- Heq.
      rewrite Hex. reflexivity.
  - destruct (close_request_system P st) as (H1 & H2 & _).
    destruct (close_request_system P' st') as (H1' & H2' & _).
    apply system_state_eq in H2 as (_ & _ & ? & ? & ? & ?).
    apply system_state_eq in H2' as (_ & _ & ? & ? & ? & ?).
    unfold countdown_part. congruence.
  - unfold click_close_btn. rewrite <- Hb. destruct (close_btn st.1); [|done].
    assert (Hrel : countdown_part (release_enforcement P st)
                   = countdown_part (release_enforcement P' st')).
    { rewrite !release_enforcement_countdown.
      rewrite <- Hl, <- Hr, <- Hm, <- Hc, <- Ht, <- Hn, <- Hv, <- He, Hex. reflexivity. }
    unfold safe_close.
    destruct (release_enforcement P st) as [w1 os1].
    destruct (release_enforcement P' st') as [w2 os2].
    unfold countdown_part in *. simpl in *.
    injection Hrel as ? ? ? ? ? ? ? ? ? ? ?. congruence.
Qed.

(** X15: the countdown runs the same on every platform and whatever
    WinAPI calls fail. Two runs of the same events from states that agree
    on the countdown side (lock time, remaining, deadline, timers, label,
    button, visibility, exit status) agree on it afterwards, even if the
    platforms differ in everything: Windows or not, which calls raise,
    which handle the hook gets, the screen. *)
Theorem countdown_platform_independent (P P' : Platform) (evs : list event)
    (st st' : state) :
  countdown_part st = countdown_part st' ->
  countdown_part (run P evs st) = countdown_part (run P' evs st').
Proof.
  revert st st'. induction evs as [|ev evs IH]; intros st st' Heq; [done|].
  rewrite !run_cons. apply IH. by apply handle_countdown.
Qed.

Lemma countdown_platform_independent_witness :
  countdown_part
    (run windows_unhook_fails [EvShow 0 0; EvTimeout 1 2; EvTimeout 1 6; EvClick]
       (default_window_object, fresh_world))
  = countdown_part
      (run windows_ok [EvShow 0 0; EvTimeout 1 2; EvTimeout 1 6; EvClick]
         (default_window_object, fresh_world)).
Proof.
  apply (countdown_platform_independent windows_unhook_fails windows_ok
           [EvShow 0 0; EvTimeout 1 2; EvTimeout 1 6; EvClick]
           (default_window_object, fresh_world) (default_window_object, fresh_world)).
  reflexivity.
Defined.

(** ** Start-up without a configuration file *)




